(** * estimagic: the moment-sensitivity lollipop plot

    A shallow embedding of [moment_sensitivity_plot]
    (src/estimagic/visualization/sensitivity_plot.py) together with the
    fragment of pandas, seaborn and matplotlib that the function drives.

    - Tables are pandas data frames: a row index and an ordered list of
      labelled columns.  Labels and cells share one type of Python values,
      because transposition and [reset_index] turn labels into cells.
    - Python objects live in a store; a data frame is passed around by
      reference, so that copying, in-place assignment and aliasing between
      the entries of the argument list are visible.
    - Exceptions are results: every operation returns the new world together
      with either a value or the exception that was raised.
    - Numeric cells are 64-bit integers, pandas' [int64], with the
      wrap-around of their absolute value; floating-point cells and Python
      integers beyond 64 bits are outside the model.  The axes of a frame
      carry no names.
    - The plotting library is an external collaborator: its calls are
      modelled by their effect on a small figure record.  Of its errors the
      model has the one of the data lookup: a variable that does not name
      exactly one column of the frame. *)

From Stdlib Require Import ZArith.
From Stdlib Require Import Ascii.
From stdpp Require Import base list strings pretty.

Local Open Scope Z_scope.
Local Open Scope nat_scope.

(** ** Values, exceptions, results *)

Inductive value :=
  | VStr (s : string)
  | VInt (z : Z).

Global Instance value_eq_dec : EqDecision value.
Proof. solve_decision. Defined.

(** The exception classes that the function can raise.  [ReferenceError] is
    raised by the model when a reference is not bound in the store, which no
    Python caller can produce. *)
Inductive exn :=
  | IndexError
  | KeyError
  | AttributeError
  | TypeError
  | ValueError
  | ReferenceError.

Global Instance exn_eq_dec : EqDecision exn.
Proof. solve_decision. Defined.

Inductive res (A : Type) :=
  | Ok (a : A)
  | Raise (e : exn).
Arguments Ok {A} a.
Arguments Raise {A} e.

Global Instance res_ret : MRet res := λ A a, Ok a.
Global Instance res_bind : MBind res := λ A B f r,
  match r with
  | Ok a => f a
  | Raise e => Raise e
  end.

(** [mapM] for results, left to right. *)
Fixpoint res_mapM {A B} (f : A → res B) (l : list A) : res (list B) :=
  match l with
  | [] => Ok []
  | a :: l' => b ← f a; bs ← res_mapM f l'; mret (b :: bs)
  end.

(** ** Python slicing *)

(** [l[-n:]]: the last [n] elements, everything when [n] exceeds the length,
    and (since [-0] is [0]) everything when [n] is zero. *)
Definition py_tail {A} (n : nat) (l : list A) : list A :=
  if Nat.eqb n 0 then l else drop (length l - n) l.

(** The complement of [l[-n:]] in [l]. *)
Definition py_before_tail {A} (n : nat) (l : list A) : list A :=
  if Nat.eqb n 0 then [] else take (length l - n) l.

(** [l[i]] for a non-negative [i]. *)
Definition list_getitem {A} (l : list A) (i : nat) : res A :=
  match l !! i with
  | Some a => Ok a
  | None => Raise IndexError
  end.

(** ** Data frames *)

(** A column: its label and its cells. *)
Abbreviation column := (value * list value)%type.

(** Neither axis has a name ([df.index.name] and [df.columns.name] are
    [None]), as in a frame built from columns. *)
Record DataFrame := mkDataFrame {
  idx : list value;      (* df.index: the row labels *)
  cols : list column;    (* the columns in order, each with its label *)
}.

Global Instance DataFrame_eq_dec : EqDecision DataFrame.
Proof. solve_decision. Defined.

Definition nrows (df : DataFrame) : nat := length (idx df).
Definition ncols (df : DataFrame) : nat := length (cols df).

(** [df.columns] *)
Definition labels (df : DataFrame) : list value := map fst (cols df).

(** Every column holds one cell per row. *)
Definition wf (df : DataFrame) : bool :=
  forallb (λ c : column, Nat.eqb (length (snd c)) (nrows df)) (cols df).

(** [RangeIndex(n)] *)
Definition range_index (n : nat) : list value :=
  map (λ k, VInt (Z.of_nat k)) (seq 0 n).

(** What [df[key]] evaluates to: a series when exactly one column carries the
    label, a frame of all matching columns when the label is duplicated. *)
Inductive selection :=
  | Series (cells : list value)
  | Frame (df : DataFrame).

Definition has_label (key : value) (c : column) : bool :=
  bool_decide (fst c = key).

(** [df[key]] *)
Definition getitem (df : DataFrame) (key : value) : res selection :=
  match filter (λ c, has_label key c = true) (cols df) with
  | [] => Raise KeyError
  | [c] => Ok (Series (snd c))
  | cs => Ok (Frame (mkDataFrame (idx df) cs))
  end.

(** [.to_list()]: a method of series, not of frames. *)
Definition to_list (s : selection) : res (list value) :=
  match s with
  | Series cells => Ok cells
  | Frame _ => Raise AttributeError
  end.

(** The smallest [int64]. *)
Definition int64_min : Z := (- 2 ^ 63)%Z.

(** The cells an integer column can hold. *)
Definition in_int64 (z : Z) : bool :=
  ((int64_min <=? z) && (z <? 2 ^ 63))%Z.

(** A number brought back into the range of [int64], as the machine does. *)
Definition wrap64 (z : Z) : Z := ((z + 2 ^ 63) mod 2 ^ 64 - 2 ^ 63)%Z.

(** [abs] on an [int64]: the absolute value of the smallest one does not
    fit, and wraps around to itself. *)
Definition abs64 (z : Z) : Z := wrap64 (Z.abs z).

(** [abs(v)] on one cell. *)
Definition abs_value (v : value) : res value :=
  match v with
  | VInt z => Ok (VInt (abs64 z))
  | VStr _ => Raise TypeError
  end.

Definition abs_column (c : column) : res column :=
  cells ← res_mapM abs_value (snd c); mret (fst c, cells).

(** [df.iloc[:, -n:]]: the trailing columns, by position. *)
Definition iloc_tail (n : nat) (df : DataFrame) : DataFrame :=
  mkDataFrame (idx df) (py_tail n (cols df)).

(** [.abs()] of a frame. *)
Definition frame_abs (df : DataFrame) : res DataFrame :=
  cs ← res_mapM abs_column (cols df); mret (mkDataFrame (idx df) cs).

(** [df.iloc[:, -n:] = rhs]: the trailing columns are replaced, by position,
    with the columns of [rhs]. *)
Definition iloc_tail_assign (n : nat) (df rhs : DataFrame) : DataFrame :=
  mkDataFrame (idx df) (py_before_tail n (cols df) ++ cols rhs).

(** [df.T]: row labels become column labels and the other way round.  A
    frame built by pandas holds a cell at every position; the default only
    makes the function total on records that do not. *)
Definition transpose (df : DataFrame) : DataFrame :=
  mkDataFrame (labels df)
    (imap (λ j r, (r, map (λ c : column, default (VInt 0%Z) (snd c !! j)) (cols df)))
          (idx df)).

(** [df[-n:]]: a slice selects rows. *)
Definition tail_rows (n : nat) (df : DataFrame) : DataFrame :=
  mkDataFrame (py_tail n (idx df))
    (map (λ c : column, (fst c, py_tail n (snd c))) (cols df)).

(** [df.columns = names] *)
Definition set_columns (df : DataFrame) (names : list value) : res DataFrame :=
  if Nat.eqb (length names) (ncols df)
  then Ok (mkDataFrame (idx df)
             (zip_with (λ name (c : column), (name, snd c)) names (cols df)))
  else Raise ValueError.

(** [key in df] *)
Definition contains (df : DataFrame) (key : value) : bool :=
  bool_decide (key ∈ labels df).

(** [df.reset_index()] for an unnamed single-level index: the old index
    becomes the first column, called "index", or "level_0" when a column
    "index" exists already; inserting a label that exists is an error. *)
Definition reset_index (df : DataFrame) : res DataFrame :=
  let name := if contains df (VStr "index") then VStr "level_0" else VStr "index" in
  if contains df name then Raise ValueError
  else Ok (mkDataFrame (range_index (nrows df)) ((name, idx df) :: cols df)).

(** ** Figures *)

(** [str(v)] *)
Definition str (v : value) : string :=
  match v with
  | VStr s => s
  | VInt z => pretty z
  end.

Record Axes := mkAxes {
  title : string;
  xlabel : string;
  ylabel : string;
  xlim_left : option Z;
  xgrid : bool;
  ygrid : bool;
}.

Definition loc : Type := nat.

(** A seaborn [PairGrid] with the figure it owns. *)
Record Grid := mkGrid {
  data : loc;              (* g.data: the frame the grid was made from *)
  x_vars : list value;
  y_vars : list value;
  axes : list Axes;        (* g.axes.flat *)
  despine_bottom : bool;
  suptitle : string;
}.

(** ** The world: object store and files written *)

(** The files are the log of what was saved: a later entry with the name of
    an earlier one is the file that replaced it. *)
Record World := mkWorld {
  heap : list DataFrame;             (* data-frame objects, by reference *)
  files : list (string * Grid);      (* figures saved, oldest first *)
}.

(** A statement: it changes the world and returns a value or raises; the
    world an exception leaves behind is kept. *)
Definition M (A : Type) : Type := World → World * res A.

Global Instance M_ret : MRet M := λ A a w, (w, Ok a).
Global Instance M_bind : MBind M := λ A B f m w,
  match m w with
  | (w', Ok a) => f a w'
  | (w', Raise e) => (w', Raise e)
  end.

Definition lift {A} (r : res A) : M A := λ w, (w, r).

(** A new object; its reference is returned. *)
Definition alloc (df : DataFrame) : M loc := λ w,
  (mkWorld (heap w ++ [df]) (files w), Ok (length (heap w))).

Definition load (l : loc) : M DataFrame := λ w,
  (w, match heap w !! l with
      | Some df => Ok df
      | None => Raise ReferenceError
      end).

(** In-place update of the object behind a reference. *)
Definition store (l : loc) (df : DataFrame) : M unit := λ w,
  (mkWorld (<[l:=df]> (heap w)) (files w), Ok tt).

(** [g.savefig(name)] *)
Definition savefig (g : Grid) (name : string) : M unit := λ w,
  (mkWorld (heap w) (files w ++ [(name, g)]), Ok tt).

(** [plt.clf()] clears pyplot's current figure, which no later step reads:
    every grid below owns a figure of its own. *)
Definition plt_clf : M unit := mret tt.

(** [for i in range(n): body(i)] *)
Fixpoint for_each (l : list nat) (body : nat → M unit) : M unit :=
  match l with
  | [] => mret tt
  | i :: l' => body i;; for_each l' body
  end.

Definition for_range (n : nat) (body : nat → M unit) : M unit :=
  for_each (seq 0 n) body.

(** ** The data-frame statements of the loop body, on references *)

(** [df.copy(deep=True)] *)
Definition copy_deep (l : loc) : M loc :=
  df ← load l; alloc df.

(** [df.iloc[:, -n:] = df.iloc[:, -n:].abs()] *)
Definition abs_tail_inplace (df : loc) (n : nat) : M unit :=
  d ← load df;
  rhs ← lift (frame_abs (iloc_tail n d));
  store df (iloc_tail_assign n d rhs).

(** [df.T[-n:]], a new object *)
Definition transposed_tail (df : loc) (n : nat) : M loc :=
  d ← load df; alloc (tail_rows n (transpose d)).

(** [df.columns = names] *)
Definition set_columns_inplace (df : loc) (names : list value) : M unit :=
  d ← load df; d' ← lift (set_columns d names); store df d'.

(** [df.reset_index(inplace=True)] *)
Definition reset_index_inplace (df : loc) : M unit :=
  d ← load df; d' ← lift (reset_index d); store df d'.

(** [df.columns[-n:]] *)
Definition columns_tail (df : loc) (n : nat) : M (list value) :=
  d ← load df; mret (py_tail n (labels d)).

(** ** The plotting statements *)

(** [sns.PairGrid(data=df, x_vars=xs, y_vars=ys, ...)]: one axes per pair of
    a y variable and an x variable, row by row; the bottom row carries the
    x labels and the first column the y labels.  Under the "whitegrid" style
    set at import both grids are on. *)
Definition PairGrid (df : loc) (xs ys : list value) : Grid :=
  let nys := length ys in
  mkGrid df xs ys
    (mjoin (imap (λ r y,
       imap (λ c x,
         mkAxes "" (if Nat.eqb (S r) nys then str x else "")
                (if Nat.eqb c 0 then str y else "") None true true) xs) ys))
    false "".

(** [data[var]] as a plotting function takes it: the one column of that
    label.  A label that several columns carry selects a frame, which is
    not a vector to plot; a label that no column carries is a missing
    key. *)
Definition plot_vector (d : DataFrame) (var : value) : res (list value) :=
  sel ← getitem d var;
  match sel with
  | Series cells => Ok cells
  | Frame _ => Raise ValueError
  end.

(** The data lookups of [g.map(func)]: subplot by subplot, row by row, the
    column of the x variable and the column of the y variable. *)
Definition map_lookups (d : DataFrame) (xs ys : list value) : res unit :=
  res_mapM (λ y,
    res_mapM (λ x, plot_vector d x;; plot_vector d y;; mret tt) xs) ys;;
  mret tt.

(** What [sns.stripplot(..., orient="h")] leaves on its axes: a horizontal
    categorical plot switches the grid of the category axis, y, off. *)
Definition stripplot_h (ax : Axes) : Axes :=
  mkAxes (title ax) (xlabel ax) (ylabel ax) (xlim_left ax) (xgrid ax) false.

(** A grid after [g.map(sns.stripplot, ..., orient="h")]. *)
Definition stripped (g : Grid) : Grid :=
  mkGrid (data g) (x_vars g) (y_vars g) (map stripplot_h (axes g))
    (despine_bottom g) (suptitle g).

(** [g.map(sns.stripplot, ...)]: every subplot looks its two variables up in
    the data of the grid and draws them. *)
Definition grid_map (g : Grid) : M Grid :=
  d ← load (data g);
  lift (map_lookups d (x_vars g) (y_vars g));;
  mret (stripped g).

(** [g.set(xlabel=xl, ylabel=yl)] on every axes *)
Definition grid_set_labels (xl yl : string) (g : Grid) : Grid :=
  mkGrid (data g) (x_vars g) (y_vars g)
    (map (λ ax, mkAxes (title ax) xl yl (xlim_left ax) (xgrid ax) (ygrid ax)) (axes g))
    (despine_bottom g) (suptitle g).

(** The body of [for ax, title in zip(g.axes.flat, titles)]. *)
Definition style_axes (ax : Axes) (t : string) : Axes :=
  mkAxes t (xlabel ax) (ylabel ax) (Some 0%Z) false true.

(** The whole [zip] loop: [zip] stops at the shorter of the two sequences, and
    the axes it does not reach stay as they are. *)
Definition title_axes (titles : list string) (g : Grid) : Grid :=
  mkGrid (data g) (x_vars g) (y_vars g)
    (zip_with style_axes (axes g) titles ++ drop (length titles) (axes g))
    (despine_bottom g) (suptitle g).

(** [sns.despine(bottom=True)] *)
Definition despine (g : Grid) : Grid :=
  mkGrid (data g) (x_vars g) (y_vars g) (axes g) true (suptitle g).

(** [g.fig.suptitle(s)] *)
Definition set_suptitle (s : string) (g : Grid) : Grid :=
  mkGrid (data g) (x_vars g) (y_vars g) (axes g) (despine_bottom g) s.

(** ** The function *)

(** The argument, [pd.DataFrame or list of pd.DataFrame]: line 16 tells the
    two apart with [type(sensitivity) is not list]. *)
Inductive argument :=
  | ArgFrame (t : loc)
  | ArgList (ts : list loc).

(** Line 59. *)
Definition titles : list string := ["intersection"; "beta1"; "beta2"].

(** Lines 25-76: one iteration of the loop.  [plt.subplots_adjust(top=0.9)]
    moves the layout, of which the figure record holds nothing. *)
Definition plot_one (sensitivity : list loc) (number_sens number_params : nat)
    (df_columns : list value) (i : nat) : M unit :=
  plt_clf;;
  t ← lift (list_getitem sensitivity i);
  df ← copy_deep t;
  abs_tail_inplace df number_sens;;
  df ← transposed_tail df number_sens;
  set_columns_inplace df df_columns;;
  reset_index_inplace df;;
  xs ← columns_tail df number_params;
  g ← grid_map (PairGrid df xs [VStr "index"]);
  let g := grid_set_labels "" "" g in
  let g := title_axes titles g in
  let g := despine g in
  let g := set_suptitle ("Sensitivity " +:+ pretty (i + 1)) g in
  savefig g ("sensitivity_plot" +:+ pretty (i + 1) +:+ ".png").

Definition moment_sensitivity_plot (sensitivity : argument) : M string :=
  let sensitivity :=
    match sensitivity with
    | ArgList ts => ts
    | ArgFrame t => [t]
    end in
  let number_sens := length sensitivity in
  t0 ← lift (list_getitem sensitivity 0);
  d0 ← load t0;
  name ← lift (getitem d0 (VStr "name"));
  df_columns ← lift (to_list name);
  let number_params := length df_columns in
  for_range number_sens (plot_one sensitivity number_sens number_params df_columns);;
  mret "Figures saved.".

(** ** The statements on values *)

(** Line 27 on the value of the copy. *)
Definition absolute (n : nat) (t : DataFrame) : res DataFrame :=
  rhs ← frame_abs (iloc_tail n t); mret (iloc_tail_assign n t rhs).

(** Lines 26-31 on values: the frame handed to the plotting library. *)
Definition reshape (names : list value) (n : nat) (t : DataFrame) : res DataFrame :=
  d ← absolute n t;
  d ← set_columns (tail_rows n (transpose d)) names;
  reset_index d.

(** Lines 34-51 on values: the lookups of the plot in the reshaped table. *)
Definition draws (p : nat) (d : DataFrame) : res unit :=
  map_lookups d (py_tail p (labels d)) [VStr "index"].

(** Lines 26-51 on values: a table reshaped and drawn. *)
Definition render (names : list value) (n p : nat) (t : DataFrame)
    : res DataFrame :=
  d ← reshape names n t; draws p d;; mret d.

(** Lines 34-74: the grid as it is when it is saved. *)
Definition figure (df : loc) (xs : list value) (i : nat) : Grid :=
  set_suptitle ("Sensitivity " +:+ pretty (i + 1))
    (despine (title_axes titles
      (grid_set_labels "" "" (stripped (PairGrid df xs [VStr "index"]))))).

Definition file_name (i : nat) : string :=
  "sensitivity_plot" +:+ pretty (i + 1) +:+ ".png".

(** The list the loop runs over. *)
Definition arg_list (a : argument) : list loc :=
  match a with
  | ArgList ts => ts
  | ArgFrame t => [t]
  end.

(** The figures a run has added to the files of [w]. *)
Definition new_files (w w' : World) : list (string * Grid) :=
  drop (length (files w)) (files w').

(** The table a saved figure was drawn from. *)
Definition table_of (w : World) (f : string * Grid) : option DataFrame :=
  heap w !! data (snd f).

Definition is_string (v : value) : bool :=
  match v with
  | VStr _ => true
  | VInt _ => false
  end.

Definition is_number (v : value) : bool := negb (is_string v).

(** [abs] of every cell, when every cell is a number. *)
Definition abs_cells (cells : list value) : list value :=
  map (λ v, match v with VInt z => VInt (abs64 z) | VStr s => VStr s end) cells.

(** Every integer cell of the table is an [int64]. *)
Definition int64_cells (t : DataFrame) : bool :=
  forallb (λ c : column,
    forallb (λ v, match v with VInt z => in_int64 z | VStr _ => true end)
      (snd c)) (cols t).

(** When reshaping succeeds: the trailing columns are numeric, the first
    table has as many names as this table has rows, and the names leave a
    label free for the index column. *)
Definition reshapes (names : list value) (n : nat) (t : DataFrame) : bool :=
  forallb (λ c : column, forallb is_number (snd c)) (py_tail n (cols t))
  && Nat.eqb (length names) (nrows t)
  && negb (bool_decide (VStr "index" ∈ names)
           && bool_decide (VStr "level_0" ∈ names)).

(** [t["name"].to_list()] *)
Definition name_list (t : DataFrame) : res (list value) :=
  sel ← getitem t (VStr "name"); to_list sel.

(** The tables of the argument exist. *)
Definition arg_ok (w : World) (a : argument) : Prop :=
  Forall (λ l, is_Some (heap w !! l)) (arg_list a).

(** [f] is the figure of iteration [i]: drawn from the reshaped table of
    the [i]-th argument as it was in [w0], which [w'] holds. *)
Definition produced (s : list loc) (n p : nat) (names : list value)
    (w0 w' : World) (i : nat) (f : string * Grid) : Prop :=
  ∃ l t d,
    s !! i = Some l ∧ heap w0 !! l = Some t ∧ render names n p t = Ok d ∧
    table_of w' f = Some d ∧
    f = (file_name i, figure (data (snd f)) (py_tail p (labels d)) i).

(** The indices in [il] select tables that exist in [w]. *)
Definition bound (s : list loc) (w : World) (il : list nat) : Prop :=
  ∀ i, i ∈ il → ∃ l, s !! i = Some l ∧ is_Some (heap w !! l).

(** ** Valid inputs *)



(** ** What a run shows *)

(** A grid without the reference to its data. *)
Definition forget_data (g : Grid) : Grid :=
  mkGrid 0 (x_vars g) (y_vars g) (axes g) (despine_bottom g) (suptitle g).

(** A saved figure as an observer sees it: the file name, the table that was
    drawn and the figure. *)
Definition observe (w : World) (f : string * Grid)
    : string * option DataFrame * Grid :=
  (fst f, table_of w f, forget_data (snd f)).

(** What the figures of a run over the tables of [w0] look like: the
    [k]-th is drawn from the reshaped [k]-th table. *)
Definition shows_figures (a : argument) (w0 : World) (names : list value)
    (obs : list (string * option DataFrame * Grid)) : Prop :=
  ∀ k o, obs !! k = Some o →
    ∃ l t d,
      arg_list a !! k = Some l ∧ heap w0 !! l = Some t ∧
      render names (length (arg_list a)) (length names) t = Ok d ∧
      o = (file_name k, Some d,
           forget_data (figure 0 (py_tail (length names) (labels d)) k)).

(** How such a run ends after [k] figures: well, when every table has its
    figure, or with the error of the table that is not reshaped and
    drawn. *)
Definition ends_after (a : argument) (w0 : World) (names : list value)
    (k : nat) (r : res string) : Prop :=
  match r with
  | Ok msg => msg = "Figures saved." ∧ k = length (arg_list a)
  | Raise e => ∃ l t,
      arg_list a !! k = Some l ∧ heap w0 !! l = Some t ∧
      render names (length (arg_list a)) (length names) t = Raise e
  end.

Definition run_shows (a : argument) (w0 : World) (names : list value)
    (obs : list (string * option DataFrame * Grid)) (r : res string) : Prop :=
  shows_figures a w0 names obs ∧ ends_after a w0 names (length obs) r.

(** ** Scenarios *)

(** One table, parameters [a], [b], [c], one measure column. *)
Definition scenario_table : DataFrame :=
  mkDataFrame (range_index 3)
    [ (VStr "name", [VStr "a"; VStr "b"; VStr "c"]);
      (VStr "m", [VInt (-1); VInt 2; VInt (-3)]) ].

Definition scenario_world : World := mkWorld [scenario_table] [].

(** Two tables of the same shape with different parameter names, and a
    table without a [name] column. *)
Definition table_ab : DataFrame :=
  mkDataFrame (range_index 2)
    [ (VStr "name", [VStr "a"; VStr "b"]);
      (VStr "m1", [VInt (-1); VInt 2]);
      (VStr "m2", [VInt 3; VInt (-4)]) ].

Definition table_cd : DataFrame :=
  mkDataFrame (range_index 2)
    [ (VStr "name", [VStr "c"; VStr "d"]);
      (VStr "m1", [VInt 5; VInt (-6)]);
      (VStr "m2", [VInt (-7); VInt 8]) ].

Definition table_xy : DataFrame :=
  mkDataFrame (range_index 2)
    [ (VStr "x", [VInt 5; VInt (-6)]);
      (VStr "y", [VInt (-7); VInt 8]) ].

Definition world_ab_cd : World := mkWorld [table_ab; table_cd] [].
Definition world_ab_xy : World := mkWorld [table_ab; table_xy] [].

(** ** What the function accepts *)

(** The columns of a table that carry the label [name]. *)
Definition name_columns (t : DataFrame) : list column :=
  filter (λ c, has_label (VStr "name") c = true) (cols t).

(** What an input must be for the function to return: a non-empty list of
    existing tables, the first with exactly one [name] column, which names
    no parameter twice, and every table reshaping without error. *)
Definition accepts (w : World) (a : argument) : bool :=
  match arg_list a with
  | [] => false
  | l0 :: _ =>
    match heap w !! l0 with
    | None => false
    | Some t0 =>
      match name_list t0 with
      | Raise _ => false
      | Ok names =>
        bool_decide (NoDup names) &&
        forallb (λ l,
          match heap w !! l with
          | None => false
          | Some t => reshapes names (length (arg_list a)) t
          end) (arg_list a)
      end
    end
  end.

(** Why a table is not reshaped and drawn: a string among the cells of its
    trailing [n] columns; or, these cells being numbers, another number of
    rows than there are names, names that hold both "index" and "level_0",
    or a name that stands twice. *)
Definition fails_with (names : list value) (n : nat) (t : DataFrame) (e : exn)
    : Prop :=
  (e = TypeError ∧
   ∃ c v, c ∈ py_tail n (cols t) ∧ v ∈ snd c ∧ is_string v = true) ∨
  (e = ValueError ∧
   forallb (λ c : column, forallb is_number (snd c)) (py_tail n (cols t)) = true ∧
   (length names ≠ nrows t ∨
    (VStr "index" ∈ names ∧ VStr "level_0" ∈ names) ∨
    ¬ NoDup names)).

(** An empty table: a [name] column and a measure column without rows. *)
Definition table_empty : DataFrame :=
  mkDataFrame [] [ (VStr "name", []); (VStr "m", []) ].

(** Five parameters, one measure. *)
Definition table_five : DataFrame :=
  mkDataFrame (range_index 5)
    [ (VStr "name", [VStr "a"; VStr "b"; VStr "c"; VStr "d"; VStr "e"]);
      (VStr "m", [VInt 1; VInt (-2); VInt 3; VInt (-4); VInt 5]) ].

(** A table with one row more than [table_ab]. *)
Definition table_three_rows : DataFrame :=
  mkDataFrame (range_index 3)
    [ (VStr "name", [VStr "a"; VStr "b"; VStr "c"]);
      (VStr "m1", [VInt 1; VInt 2; VInt 3]);
      (VStr "m2", [VInt 4; VInt 5; VInt 6]) ].

(** A table with a parameter called "index". *)
Definition table_index : DataFrame :=
  mkDataFrame (range_index 2)
    [ (VStr "name", [VStr "index"; VStr "b"]);
      (VStr "m", [VInt (-1); VInt 2]) ].

(** The same parameter name twice. *)
Definition table_aa : DataFrame :=
  mkDataFrame (range_index 2)
    [ (VStr "name", [VStr "a"; VStr "a"]);
      (VStr "m", [VInt (-1); VInt 2]) ].

(** The smallest [int64] among the measures. *)
Definition table_min : DataFrame :=
  mkDataFrame (range_index 2)
    [ (VStr "name", [VStr "a"; VStr "b"]);
      (VStr "m", [VInt int64_min; VInt (-2)]) ].

Definition world_aa : World := mkWorld [table_aa] [].
Definition world_min : World := mkWorld [table_min] [].
Definition world_ab_three : World := mkWorld [table_ab; table_three_rows] [].
Definition world_ab : World := mkWorld [table_ab] [].
Definition world_empty : World := mkWorld [table_empty] [].
Definition world_five : World := mkWorld [table_five] [].
Definition world_index : World := mkWorld [table_index] [].

(** ** The documentation build: the version string

    docs/source/conf.py derives the short version from the release:
    [version = ".".join(release.split(".")[:2])]. *)

(** [c in s] for a character *)
Fixpoint occurs (c : ascii) (s : string) : bool :=
  match s with
  | EmptyString => false
  | String c' s' => bool_decide (c' = c) || occurs c s'
  end.

(** [s.split(sep)] for a separator of one character: a piece for every
    stretch between separators, empty pieces included, so that the result is
    never empty. *)
Fixpoint split (sep : ascii) (s : string) : list string :=
  match s with
  | EmptyString => [EmptyString]
  | String c s' =>
    if bool_decide (c = sep) then EmptyString :: split sep s'
    else match split sep s' with
         | [] => [String c EmptyString]
         | piece :: pieces => String c piece :: pieces
         end
  end.

(** [sep.join(l)] *)
Fixpoint join (sep : string) (l : list string) : string :=
  match l with
  | [] => EmptyString
  | x :: l' =>
    match l' with
    | [] => x
    | _ :: _ => x +:+ sep +:+ join sep l'
    end
  end.

Definition dot : ascii := "."%char.

(** Line 105, as a function of the release. *)
Definition version_of (release : string) : string :=
  join (String dot EmptyString) (take 2 (split dot release)).

(** Lines 104 and 105. *)
Definition release : string := "0.0.31".
Definition version : string := version_of release.

(** * Lemmas *)

(** ** The operations at work *)

Example py_tail_last_two : py_tail 2 [1; 2; 3] = [2; 3].
Proof. reflexivity. Qed.

Example py_tail_beyond_length : py_tail 5 [1; 2; 3] = [1; 2; 3].
Proof. reflexivity. Qed.

Example py_tail_minus_zero : py_tail 0 [1; 2; 3] = [1; 2; 3].
Proof. reflexivity. Qed.

Example transpose_table_ab :
  transpose table_ab
  = mkDataFrame [VStr "name"; VStr "m1"; VStr "m2"]
      [ (VInt 0, [VStr "a"; VInt (-1); VInt 3]);
        (VInt 1, [VStr "b"; VInt 2; VInt (-4)]) ].
Proof. reflexivity. Qed.

Example abs_of_a_name_raises : frame_abs table_ab = Raise TypeError.
Proof. reflexivity. Qed.

Example duplicated_name_is_a_frame :
  name_list (mkDataFrame [VInt 0]
               [(VStr "name", [VStr "a"]); (VStr "name", [VStr "b"])])
  = Raise AttributeError.
Proof. reflexivity. Qed.

Example reshape_table_ab :
  reshape [VStr "a"; VStr "b"] 2 table_ab
  = Ok (mkDataFrame [VInt 0; VInt 1]
          [ (VStr "index", [VStr "m1"; VStr "m2"]);
            (VStr "a", [VInt 1; VInt 3]);
            (VStr "b", [VInt 2; VInt 4]) ]).
Proof. reflexivity. Qed.

(** A parameter called "index" pushes the index column to "level_0". *)
Example reset_index_beside_index :
  reset_index (mkDataFrame [VStr "m"] [(VStr "index", [VInt 1])])
  = Ok (mkDataFrame [VInt 0] [(VStr "level_0", [VStr "m"]); (VStr "index", [VInt 1])]).
Proof. reflexivity. Qed.

(** Fewer columns than tables: the slice takes what there is. *)
Example reshape_short_table :
  reshape [VInt 1; VInt 2] 2
    (mkDataFrame [VInt 0; VInt 1] [(VStr "name", [VInt 1; VInt 2])])
  = Ok (mkDataFrame [VInt 0]
          [ (VStr "index", [VStr "name"]); (VInt 1, [VInt 1]); (VInt 2, [VInt 2]) ]).
Proof. reflexivity. Qed.

(** A table with another number of rows than the first has names. *)
Example reshape_length_mismatch :
  reshape [VStr "a"; VStr "b"; VStr "c"] 1 table_ab = Raise ValueError.
Proof. reflexivity. Qed.

(** ** Store lemmas *)

Lemma heap_lookup_new (h : list DataFrame) x : (h ++ [x]) !! length h = Some x.
Proof. by rewrite list_lookup_middle. Qed.

Lemma heap_insert_new (h : list DataFrame) x y :
  <[length h := y]> (h ++ [x]) = h ++ [y].
Proof.
  rewrite insert_app_r_alt by lia. by rewrite Nat.sub_diag.
Qed.


Ltac store_step :=
  repeat (progress (cbn [heap files]; rewrite ?heap_insert_new, ?heap_lookup_new)).

(** One iteration, step by step, on a bound table. *)
Lemma plot_one_run s n p names i w l t :
  s !! i = Some l →
  heap w !! l = Some t →
  plot_one s n p names i w =
    match absolute n t with
    | Raise e => (mkWorld (heap w ++ [t]) (files w), Raise e)
    | Ok d1 =>
      let d2 := tail_rows n (transpose d1) in
      match set_columns d2 names with
      | Raise e => (mkWorld (heap w ++ [d1; d2]) (files w), Raise e)
      | Ok d3 =>
        match reset_index d3 with
        | Raise e => (mkWorld (heap w ++ [d1; d3]) (files w), Raise e)
        | Ok d4 =>
          match draws p d4 with
          | Raise e => (mkWorld (heap w ++ [d1; d4]) (files w), Raise e)
          | Ok _ =>
            (mkWorld (heap w ++ [d1; d4])
               (files w ++ [(file_name i,
                             figure (S (length (heap w))) (py_tail p (labels d4)) i)]),
             Ok tt)
          end
        end
      end
    end.
Proof.
  intros Hs Hl.
  unfold plot_one, plt_clf, list_getitem, copy_deep, abs_tail_inplace,
    transposed_tail, set_columns_inplace, reset_index_inplace, columns_tail,
    grid_map, load, alloc, store, savefig, absolute, draws, lift.
  unfold mbind, mret, M_bind, M_ret. cbn [heap files].
  rewrite Hs, Hl. store_step.
  destruct (frame_abs (iloc_tail n t)) as [rhs|e]; cbn [res_bind res_ret];
    [|done]. store_step.
  destruct (set_columns _ names) as [d3|e]; store_step.
  2: { by rewrite <- app_assoc. }
  destruct (reset_index d3) as [d4|e]; store_step.
  2: { by rewrite <- app_assoc. }
  cbn [data x_vars y_vars PairGrid]. store_step.
  destruct (map_lookups d4 (py_tail p (labels d4)) [VStr "index"]) as [[]|e];
    store_step.
  2: { by rewrite <- app_assoc. }
  rewrite <- app_assoc, length_app. cbn [length].
  by replace (length (heap w) + 1) with (S (length (heap w))) by lia.
Qed.

(** ** The loop *)

Section Loop.
Context (s : list loc) (n p : nat) (names : list value).

Lemma plot_one_ok i w w' l t :
  s !! i = Some l → heap w !! l = Some t →
  plot_one s n p names i w = (w', Ok tt) →
  heap w `prefix_of` heap w' ∧
  ∃ f, files w' = files w ++ [f] ∧ produced s n p names w w' i f.
Proof.
  intros Hs Hl. rewrite (plot_one_run _ _ _ _ _ _ _ _ Hs Hl).
  unfold produced, table_of.
  destruct (absolute n t) as [d1|e] eqn:Habs; cbv beta iota zeta; [|done].
  destruct (set_columns _ names) as [d3|e] eqn:Hset; cbv beta iota zeta; [|done].
  destruct (reset_index d3) as [d4|e] eqn:Hreset; cbv beta iota zeta; [|done].
  destruct (draws p d4) as [[]|e] eqn:Hdraw; [|done].
  intros [= <-]. cbn [heap files]. split; [by eexists|].
  eexists. split; [done|].
  exists l, t, d4. cbn [snd data figure set_suptitle despine title_axes
    grid_set_labels stripped PairGrid heap].
  repeat split; try done.
  { unfold render, reshape. rewrite Habs. cbn [mbind res_bind].
    rewrite Hset. cbn [mbind res_bind]. rewrite Hreset. cbn [mbind res_bind].
    by rewrite Hdraw. }
  rewrite lookup_app_r by lia.
  by replace (S (length (heap w)) - length (heap w)) with 1 by lia.
Qed.

Lemma plot_one_raise i w w' l t e :
  s !! i = Some l → heap w !! l = Some t →
  plot_one s n p names i w = (w', Raise e) →
  heap w `prefix_of` heap w' ∧ files w' = files w ∧ render names n p t = Raise e.
Proof.
  intros Hs Hl. rewrite (plot_one_run _ _ _ _ _ _ _ _ Hs Hl).
  unfold render, reshape.
  destruct (absolute n t) as [d1|e1]; cbn [mbind res_bind].
  2: { intros [= <- <-]. cbn. split; [by eexists|done]. }
  destruct (set_columns _ names) as [d3|e1]; cbv beta iota zeta; cbn [mbind res_bind].
  2: { intros [= <- <-]. cbn. split; [by eexists|done]. }
  destruct (reset_index d3) as [d4|e1]; cbn [mbind res_bind].
  2: { intros [= <- <-]. cbn. split; [by eexists|done]. }
  destruct (draws p d4) as [[]|e1]; cbn [mbind res_bind]; [done|].
  intros [= <- <-]. cbn. split; [by eexists|done].
Qed.

(** An iteration never touches an object that existed before it, and only
    appends to the files, whatever the argument list holds. *)
Lemma plot_one_extends i w :
  heap w `prefix_of` heap (fst (plot_one s n p names i w)) ∧
  files w `prefix_of` files (fst (plot_one s n p names i w)).
Proof.
  destruct (s !! i) as [l|] eqn:Hs.
  2: { unfold plot_one, plt_clf, lift, list_getitem, mbind, mret, M_bind, M_ret.
       by rewrite Hs. }
  destruct (heap w !! l) as [t|] eqn:Hl.
  2: { unfold plot_one, plt_clf, lift, list_getitem, copy_deep, load,
         mbind, mret, M_bind, M_ret.
       rewrite Hs. cbn. by rewrite Hl. }
  destruct (plot_one s n p names i w) as [w' [[]|e]] eqn:Hrun; cbn.
  - destruct (plot_one_ok _ _ _ _ _ Hs Hl Hrun) as (? & f & -> & _).
    split; [done|by eexists].
  - destruct (plot_one_raise _ _ _ _ _ _ Hs Hl Hrun) as (? & -> & _). done.
Qed.

Lemma for_each_extends il w :
  heap w `prefix_of` heap (fst (for_each il (plot_one s n p names) w)) ∧
  files w `prefix_of` files (fst (for_each il (plot_one s n p names) w)).
Proof.
  revert w. induction il as [|i il IH]; intros w; [done|].
  cbn [for_each]. unfold mbind, M_bind.
  pose proof (plot_one_extends i w) as [Hh Hf].
  destruct (plot_one s n p names i w) as [w1 [[]|e]]; cbn in *; [|done].
  destruct (IH w1) as [Hh1 Hf1]. split; by etrans.
Qed.

(** A figure stays what it is when the store grows afterwards ... *)
Lemma produced_later w0 w1 w' i f :
  heap w1 `prefix_of` heap w' →
  produced s n p names w0 w1 i f → produced s n p names w0 w' i f.
Proof.
  intros H1 (l & t & d & Hs & Hl & Hr & Ht & Hf).
  exists l, t, d. repeat split; try done.
  unfold table_of in *. by eapply prefix_lookup_Some.
Qed.

(** ... and a figure drawn from a table of a larger store is drawn from the
    same table of the smaller one, when the table is bound there. *)
Lemma produced_earlier w0 w1 w' i f :
  heap w0 `prefix_of` heap w1 →
  (∀ l, s !! i = Some l → is_Some (heap w0 !! l)) →
  produced s n p names w1 w' i f → produced s n p names w0 w' i f.
Proof.
  intros H01 Hb (l & t & d & Hs & Hl & Hr & Ht & Hf).
  exists l, t, d. repeat split; try done.
  destruct (Hb l Hs) as [t' Ht'].
  assert (heap w1 !! l = Some t') as Hl' by (by eapply prefix_lookup_Some).
  congruence.
Qed.

(** The loop: figures are produced table by table until one fails to
    be reshaped and drawn. *)
Lemma for_each_run il w w' r :
  bound s w il →
  for_each il (plot_one s n p names) w = (w', r) →
  heap w `prefix_of` heap w' ∧
  ∃ fs, files w' = files w ++ fs ∧
    (∀ k f, fs !! k = Some f →
       ∃ i, il !! k = Some i ∧ produced s n p names w w' i f) ∧
    match r with
    | Ok _ => length fs = length il
    | Raise e => ∃ i l t,
        il !! length fs = Some i ∧ s !! i = Some l ∧
        heap w !! l = Some t ∧ render names n p t = Raise e
    end.
Proof.
  revert w. induction il as [|i il IH]; intros w Hb.
  { intros [= <- <-]. split; [done|]. exists []. rewrite app_nil_r.
    repeat split; done. }
  destruct (Hb i) as (l & Hs & [t Hl]); [by left|].
  cbn [for_each]. unfold mbind, M_bind.
  destruct (plot_one s n p names i w) as [w1 [[]|e]] eqn:Hone.
  - destruct (plot_one_ok _ _ _ _ _ Hs Hl Hone) as (Hh & f & Hf & Hp).
    intros Hrest.
    assert (bound s w1 il) as Hb1.
    { intros j Hj. destruct (Hb j) as (lj & Hsj & [tj Hlj]); [by right|].
      exists lj. split; [done|]. exists tj. by eapply prefix_lookup_Some. }
    destruct (IH w1 Hb1 Hrest) as (Hh1 & fs & Hfs & Hall & Hr).
    split; [by etrans|].
    exists (f :: fs). rewrite Hfs, Hf, <- app_assoc. split; [done|]. split.
    + intros [|k] fk Hk; cbn in Hk.
      * injection Hk as <-. exists i. split; [done|].
        by eapply produced_later.
      * destruct (Hall k fk Hk) as (j & Hj & Hpj).
        exists j. split; [done|].
        eapply produced_earlier; [exact Hh| |exact Hpj].
        intros lj Hsj. destruct (Hb j) as (lj' & Hsj' & Hlj').
        { right. by eapply list_elem_of_lookup_2. }
        congruence.
    + destruct r as [[]|e].
      * cbn. by f_equal.
      * destruct Hr as (j & lj & tj & Hj & Hsj & Hlj & Hre).
        exists j, lj, tj. repeat split; try done.
        destruct (Hb j) as (lj' & Hsj' & [tj' Hlj']).
        { right. by eapply list_elem_of_lookup_2. }
        assert (lj' = lj) as -> by congruence.
        assert (heap w1 !! lj = Some tj') as Hlj1 by (by eapply prefix_lookup_Some).
        congruence.
  - destruct (plot_one_raise _ _ _ _ _ _ Hs Hl Hone) as (Hh & Hf & Hre).
    intros [= <- <-]. split; [done|]. exists []. rewrite app_nil_r.
    split; [done|]. split; [done|].
    exists i, l, t. done.
Qed.

End Loop.

(** ** Slices *)

Lemma py_tail_split {A} n (l : list A) : py_before_tail n l ++ py_tail n l = l.
Proof.
  unfold py_before_tail, py_tail. destruct (Nat.eqb n 0); [done|].
  apply take_drop.
Qed.

Lemma length_py_tail {A} n (l : list A) :
  0 < n → length (py_tail n l) = Nat.min n (length l).
Proof.
  intros Hn. unfold py_tail. destruct (Nat.eqb_spec n 0); [lia|].
  rewrite length_drop. lia.
Qed.

Lemma length_py_before_tail {A} n (l : list A) :
  0 < n → length (py_before_tail n l) = length l - n.
Proof.
  intros Hn. unfold py_before_tail. destruct (Nat.eqb_spec n 0); [lia|].
  rewrite length_take. lia.
Qed.

Lemma py_tail_map {A B} (f : A → B) n (l : list A) :
  py_tail n (map f l) = map f (py_tail n l).
Proof.
  unfold py_tail. destruct (Nat.eqb n 0); [done|].
  change (map f) with (fmap (M:=list) f). by rewrite fmap_drop, length_fmap.
Qed.

(** ** Absolute values *)

Lemma res_mapM_abs_value cells cells' :
  res_mapM abs_value cells = Ok cells' ↔
  forallb is_number cells = true ∧ cells' = abs_cells cells.
Proof.
  revert cells'. induction cells as [|v cells IH]; intros cells'; cbn.
  { split; [by intros [= <-]|by intros [_ ->]]. }
  destruct v as [s|z]; cbn.
  { split; [done|by intros [? _]]. }
  destruct (res_mapM abs_value cells) as [bs|e]; cbn.
  - destruct (IH bs) as [[H1 H2] _]; [done|]. split.
    + intros [= <-]. by rewrite H2.
    + intros [_ ->]. by rewrite H2.
  - split; [done|]. intros [Hn _].
    destruct (IH (abs_cells cells)) as [_ H]. by specialize (H (conj Hn eq_refl)).
Qed.

(** A column of strings survives [abs] only when it is empty. *)
Lemma abs_column_strings c c' :
  abs_column c = Ok c' → forallb is_string (snd c) = true → c' = c.
Proof.
  unfold abs_column. destruct c as [k cells]. cbn.
  destruct (res_mapM abs_value cells) as [bs|e] eqn:Hm; cbn; [|done].
  intros [= <-] Hs. apply res_mapM_abs_value in Hm as [Hn ->].
  destruct cells as [|v cells]; [done|].
  cbn in Hs, Hn. unfold is_number in Hn. by destruct (is_string v).
Qed.

Lemma abs_column_spec c c' :
  abs_column c = Ok c' ↔
  forallb is_number (snd c) = true ∧ c' = (fst c, abs_cells (snd c)).
Proof.
  unfold abs_column.
  destruct (res_mapM abs_value (snd c)) as [b|e] eqn:Hc; cbn.
  - apply res_mapM_abs_value in Hc as [Hn ->]. split.
    + by intros [= <-].
    + by intros [_ ->].
  - split; [done|]. intros [Hn _].
    pose proof (proj2 (res_mapM_abs_value (snd c) _) (conj Hn eq_refl)).
    congruence.
Qed.

Lemma res_mapM_abs_column cs cs' :
  res_mapM abs_column cs = Ok cs' ↔
  forallb (λ c : column, forallb is_number (snd c)) cs = true ∧
  cs' = map (λ c : column, (fst c, abs_cells (snd c))) cs.
Proof.
  revert cs'. induction cs as [|c cs IH]; intros cs'; cbn.
  { split; [by intros [= <-]|by intros [_ ->]]. }
  destruct (abs_column c) as [b|e] eqn:Hc; cbn.
  - apply abs_column_spec in Hc as [Hn ->]. rewrite Hn. cbn.
    destruct (res_mapM abs_column cs) as [bs|e]; cbn.
    + destruct (IH bs) as [[H1 H2] _]; [done|]. split.
      * intros [= <-]. by rewrite H2.
      * intros [_ ->]. by rewrite H2.
    + split; [done|]. intros [Hn' _].
      destruct (IH (map (λ c : column, (fst c, abs_cells (snd c))) cs)) as [_ H].
      by specialize (H (conj Hn' eq_refl)).
  - split; [done|]. intros [Hn _]. apply andb_prop in Hn as [Hn _].
    pose proof (proj2 (abs_column_spec c _) (conj Hn eq_refl)).
    congruence.
Qed.

(** Line 27 in one equation: it succeeds exactly when the trailing columns
    hold numbers only, and then replaces them by their absolute values. *)
Lemma absolute_spec n t d :
  absolute n t = Ok d ↔
  forallb (λ c : column, forallb is_number (snd c)) (py_tail n (cols t)) = true ∧
  d = mkDataFrame (idx t)
        (py_before_tail n (cols t) ++
         map (λ c : column, (fst c, abs_cells (snd c))) (py_tail n (cols t))).
Proof.
  unfold absolute, frame_abs, iloc_tail, iloc_tail_assign. cbn.
  destruct (res_mapM abs_column (py_tail n (cols t))) as [cs|e] eqn:Hm; cbn.
  - apply res_mapM_abs_column in Hm as [Hn ->]. split.
    + by intros [= <-].
    + by intros [_ ->].
  - split; [done|]. intros [Hn _].
    pose proof (proj2 (res_mapM_abs_column (py_tail n (cols t)) _) (conj Hn eq_refl)).
    congruence.
Qed.

Lemma absolute_idx n t d : absolute n t = Ok d → idx d = idx t.
Proof. intros H. apply absolute_spec in H as [_ ->]. done. Qed.

Lemma absolute_labels n t d : absolute n t = Ok d → labels d = labels t.
Proof.
  intros H. apply absolute_spec in H as [_ ->]. unfold labels. cbn.
  rewrite map_app, map_map. cbn.
  rewrite <- map_app. by rewrite py_tail_split.
Qed.

Lemma absolute_ncols n t d : absolute n t = Ok d → ncols d = ncols t.
Proof.
  intros H. apply absolute_labels in H. unfold ncols.
  apply (f_equal length) in H. unfold labels in H.
  by rewrite !length_map in H.
Qed.

(** ** Transposing, relabelling, resetting the index *)

Lemma transposed_tail_ncols n d : ncols (tail_rows n (transpose d)) = nrows d.
Proof.
  unfold ncols, tail_rows, transpose, nrows. cbn.
  by rewrite length_map, length_imap.
Qed.

Lemma transposed_tail_idx n d : idx (tail_rows n (transpose d)) = py_tail n (labels d).
Proof. done. Qed.


Lemma set_columns_spec d names d' :
  set_columns d names = Ok d' ↔
  length names = ncols d ∧
  d' = mkDataFrame (idx d)
         (zip_with (λ name (c : column), (name, snd c)) names (cols d)).
Proof.
  unfold set_columns. destruct (Nat.eqb_spec (length names) (ncols d)).
  - split; [by intros [= <-]|by intros [_ ->]].
  - split; [done|by intros [? _]].
Qed.

Lemma relabel_labels (names : list value) (cs : list column) :
  length names = length cs →
  map fst (zip_with (λ name (c : column), (name, snd c)) names cs) = names.
Proof.
  revert cs. induction names as [|x names IH]; intros [|c cs] Hlen; cbn in *;
    try done.
  f_equal. apply IH. lia.
Qed.


Lemma set_columns_labels d names d' :
  set_columns d names = Ok d' → labels d' = names.
Proof.
  intros H. apply set_columns_spec in H as [Hlen ->].
  unfold labels. cbn. by apply relabel_labels.
Qed.

Lemma reset_index_spec d d' :
  reset_index d = Ok d' →
  ∃ ix, (ix = VStr "index" ∨ ix = VStr "level_0") ∧ (ix ∉ labels d) ∧
        d' = mkDataFrame (range_index (nrows d)) ((ix, idx d) :: cols d).
Proof.
  unfold reset_index, contains.
  destruct (bool_decide (VStr "index" ∈ labels d)) eqn:Hi.
  - destruct (bool_decide (VStr "level_0" ∈ labels d)) eqn:Hl; [done|].
    intros [= <-]. exists (VStr "level_0"). apply bool_decide_eq_false in Hl.
    split; [by right|done].
  - rewrite Hi. intros [= <-]. exists (VStr "index").
    apply bool_decide_eq_false in Hi. split; [by left|done].
Qed.

Lemma reset_index_ok d :
  ¬ (VStr "index" ∈ labels d ∧ VStr "level_0" ∈ labels d) →
  ∃ d', reset_index d = Ok d'.
Proof.
  intros Hno. unfold reset_index, contains.
  destruct (bool_decide (VStr "index" ∈ labels d)) eqn:Hi.
  - destruct (bool_decide (VStr "level_0" ∈ labels d)) eqn:Hl; [|by eexists].
    apply bool_decide_eq_true in Hi, Hl. by destruct Hno.
  - rewrite Hi. by eexists.
Qed.

Lemma length_range_index k : length (range_index k) = k.
Proof. unfold range_index. by rewrite length_map, length_seq. Qed.

(** ** The reshaped table *)

(** Lines 26-31 in one statement. *)
Lemma reshape_spec names n t d :
  reshape names n t = Ok d →
  ∃ d1 ix,
    absolute n t = Ok d1 ∧
    length names = nrows t ∧
    (ix = VStr "index" ∨ ix = VStr "level_0") ∧ (ix ∉ names) ∧
    d = mkDataFrame (range_index (length (py_tail n (labels t))))
          ((ix, py_tail n (labels t)) ::
           zip_with (λ name (c : column), (name, snd c)) names
             (cols (tail_rows n (transpose d1)))).
Proof.
  unfold reshape.
  destruct (absolute n t) as [d1|e] eqn:Habs; cbn; [|done].
  destruct (set_columns _ names) as [d3|e] eqn:Hset; cbn; [|done].
  intros Hreset. apply reset_index_spec in Hreset as (ix & Hix & Hfresh & ->).
  rewrite (set_columns_labels _ _ _ Hset) in Hfresh.
  apply set_columns_spec in Hset as [Hlen ->].
  rewrite transposed_tail_ncols in Hlen. unfold nrows in *. cbn.
  rewrite (absolute_idx _ _ _ Habs) in Hlen.
  rewrite (absolute_labels _ _ _ Habs).
  by exists d1, ix.
Qed.

Lemma reshape_labels names n t d :
  reshape names n t = Ok d →
  ∃ ix, (ix = VStr "index" ∨ ix = VStr "level_0") ∧ labels d = ix :: names.
Proof.
  intros H. apply reshape_spec in H as (d1 & ix & Habs & Hlen & Hix & _ & ->).
  exists ix. split; [done|]. unfold labels. cbn [cols map fst]. f_equal.
  apply relabel_labels.
  change (length names = ncols (tail_rows n (transpose d1))).
  rewrite transposed_tail_ncols. unfold nrows.
  by rewrite (absolute_idx _ _ _ Habs).
Qed.



Lemma reshape_ok names n t :
  reshapes names n t = true ↔ ∃ d, reshape names n t = Ok d.
Proof.
  unfold reshapes. split.
  - intros H. apply andb_prop in H as [H Hfree]. apply andb_prop in H as [Hnum Hlen].
    apply Nat.eqb_eq in Hlen.
    assert (∃ d1, absolute n t = Ok d1) as [d1 Habs]
      by (eexists; by apply absolute_spec).
    pose proof (absolute_idx _ _ _ Habs) as Hidx.
    assert (length names = ncols (tail_rows n (transpose d1))) as Hcols.
    { rewrite transposed_tail_ncols. unfold nrows in *. congruence. }
    unfold reshape. rewrite Habs. cbn [mbind res_bind].
    unfold set_columns. rewrite <- Hcols, Nat.eqb_refl. cbn [mbind res_bind].
    apply reset_index_ok. unfold labels. cbn [cols].
    rewrite relabel_labels by exact Hcols.
    intros [Hi Hl]. apply negb_true_iff, andb_false_iff in Hfree.
    destruct Hfree as [Hf|Hf]; apply bool_decide_eq_false in Hf; done.
  - intros [d H]. apply reshape_spec in H as (d1 & ix & Habs & Hlen & Hix & Hfresh & _).
    apply absolute_spec in Habs as [Hnum _]. rewrite Hnum.
    apply Nat.eqb_eq in Hlen. rewrite Hlen. cbn.
    apply negb_true_iff, andb_false_iff.
    destruct Hix as [->| ->]; [left|right]; by apply bool_decide_eq_false.
Qed.

(** ** Drawing *)

Lemma filter_label_missing key (cs : list column) :
  key ∉ map fst cs → filter (λ c, has_label key c = true) cs = [].
Proof.
  intros Hno. induction cs as [|c cs IH]; [done|].
  rewrite filter_cons. rewrite decide_False.
  - apply IH. intros Hin. apply Hno. cbn. by right.
  - unfold has_label. intros Heq. apply bool_decide_eq_true in Heq.
    apply Hno. cbn. rewrite <- Heq. by left.
Qed.

Lemma filter_label_found key (cs : list column) :
  key ∈ map fst cs → filter (λ c, has_label key c = true) cs ≠ [].
Proof.
  intros Hin. apply list_elem_of_fmap in Hin as (c & -> & Hc).
  intros Hnil.
  assert (c ∈ filter (λ c', has_label (fst c) c' = true) cs) as Hcf.
  { apply list_elem_of_filter. split; [|done].
    unfold has_label. by apply bool_decide_eq_true. }
  rewrite Hnil in Hcf. by apply elem_of_nil in Hcf.
Qed.

(** A label that stands once selects one column. *)
Lemma filter_label_once key (cs : list column) :
  NoDup (map fst cs) → key ∈ map fst cs →
  ∃ c, filter (λ c, has_label key c = true) cs = [c].
Proof.
  induction cs as [|c cs IH]; cbn [map].
  { intros _ Hin. by apply elem_of_nil in Hin. }
  intros Hnd Hin. apply NoDup_cons in Hnd as [Hc Hnd].
  rewrite filter_cons.
  destruct (decide (has_label key c = true)) as [Hk|Hk].
  - exists c. f_equal. apply filter_label_missing.
    unfold has_label in Hk. apply bool_decide_eq_true in Hk. by rewrite <- Hk.
  - apply elem_of_cons in Hin as [->|Hin]; [|by apply IH].
    exfalso. apply Hk. unfold has_label. by apply bool_decide_eq_true.
Qed.

(** Among labels that are not all different, one selects several columns. *)
Lemma filter_label_twice (cs : list column) :
  ¬ NoDup (map fst cs) →
  ∃ key c1 c2 rest,
    key ∈ map fst cs ∧ filter (λ c, has_label key c = true) cs = c1 :: c2 :: rest.
Proof.
  induction cs as [|c cs IH]; cbn [map].
  { intros H. destruct H. constructor. }
  intros Hdup. destruct (decide (fst c ∈ map fst cs)) as [Hin|Hin].
  - pose proof (filter_label_found _ _ Hin) as Hne.
    destruct (filter (λ c', has_label (fst c) c' = true) cs) as [|c2 rest] eqn:Hf;
      [done|].
    exists (fst c), c, c2, rest. split; [by left|].
    rewrite filter_cons, decide_True, Hf; [done|].
    unfold has_label. by apply bool_decide_eq_true.
  - destruct IH as (key & c1 & c2 & rest & Hkey & Hf).
    { intros Hnd. apply Hdup. by apply NoDup_cons. }
    destruct (decide (has_label key c = true)).
    + exists key, c, c1, (c2 :: rest). split; [by right|].
      by rewrite filter_cons, decide_True, Hf.
    + exists key, c1, c2, rest. split; [by right|].
      by rewrite filter_cons, decide_False.
Qed.

Lemma plot_vector_cases d var :
  plot_vector d var =
    match filter (λ c, has_label var c = true) (cols d) with
    | [] => Raise KeyError
    | [c] => Ok (snd c)
    | _ => Raise ValueError
    end.
Proof.
  unfold plot_vector, getitem.
  by destruct (filter _ (cols d)) as [|c [|c' cs]].
Qed.

(** A variable that is a label of the frame is drawn, or is ambiguous. *)
Lemma plot_vector_found d var :
  var ∈ labels d →
  (∃ cells, plot_vector d var = Ok cells) ∨ plot_vector d var = Raise ValueError.
Proof.
  intros Hin. rewrite plot_vector_cases.
  pose proof (filter_label_found _ _ Hin) as Hne.
  destruct (filter _ (cols d)) as [|c [|c' cs]]; [done| |by right].
  left. by eexists.
Qed.

Lemma plot_vector_once d var :
  NoDup (labels d) → var ∈ labels d → ∃ cells, plot_vector d var = Ok cells.
Proof.
  intros Hnd Hin. rewrite plot_vector_cases.
  destruct (filter_label_once _ _ Hnd Hin) as [c ->]. by eexists.
Qed.

Lemma res_mapM_ok {A B} (f : A → res B) (l : list A) :
  (∀ x, x ∈ l → ∃ b, f x = Ok b) → ∃ bs, res_mapM f l = Ok bs.
Proof.
  induction l as [|a l IH]; intros Hall; cbn [res_mapM]; [by eexists|].
  destruct (Hall a) as [b ->]; [by left|].
  destruct IH as [bs ->]; [intros x Hx; apply Hall; by right|].
  by eexists.
Qed.

Lemma res_mapM_raise {A B} (f : A → res B) (l : list A) e :
  (∀ x, x ∈ l → (∃ b, f x = Ok b) ∨ f x = Raise e) →
  (∃ x, x ∈ l ∧ f x = Raise e) →
  res_mapM f l = Raise e.
Proof.
  induction l as [|a l IH]; intros Hall (x & Hx & Hfx).
  { by apply elem_of_nil in Hx. }
  cbn [res_mapM]. destruct (Hall a) as [[b Hb]| ->]; [by left| |done].
  rewrite Hb. cbn [mbind res_bind]. rewrite IH; [done| |].
  - intros y Hy. apply Hall. by right.
  - apply elem_of_cons in Hx as [->|Hx]; [congruence|]. by exists x.
Qed.

(** The labels of a reshaped table: the index column, called "index" unless
    a parameter has that name, and then the names. *)
Lemma reshape_index_label names n t d :
  reshape names n t = Ok d →
  labels d = (if bool_decide (VStr "index" ∈ names) then VStr "level_0"
              else VStr "index") :: names ∧
  (if bool_decide (VStr "index" ∈ names) then VStr "level_0" else VStr "index")
    ∉ names.
Proof.
  unfold reshape.
  destruct (absolute n t) as [d1|e] eqn:Habs; cbn [mbind res_bind]; [|done].
  destruct (set_columns _ names) as [d3|e] eqn:Hset; cbn [mbind res_bind]; [|done].
  pose proof (set_columns_labels _ _ _ Hset) as Hlab.
  unfold reset_index, contains. rewrite Hlab.
  destruct (bool_decide_reflect
              ((if bool_decide (VStr "index" ∈ names) then VStr "level_0"
                else VStr "index") ∈ names)) as [|Hfree]; [done|].
  intros [= <-]. split; [|done]. unfold labels in *. cbn [cols map fst].
  by rewrite Hlab.
Qed.

(** The plot of a reshaped table finds its variables exactly when no name
    stands twice; a name that does selects several columns at once. *)
Lemma draws_reshaped names n t d :
  reshape names n t = Ok d →
  draws (length names) d
  = if decide (NoDup names) then Ok tt else Raise ValueError.
Proof.
  intros Hd. destruct (reshape_index_label _ _ _ _ Hd) as [Hlab Hfree].
  set (ix := if bool_decide (VStr "index" ∈ names) then VStr "level_0"
             else VStr "index") in *.
  assert (VStr "index" ∈ labels d) as Hindex.
  { rewrite Hlab. unfold ix.
    destruct (bool_decide_reflect (VStr "index" ∈ names)); [by right|by left]. }
  assert (∀ x, x ∈ py_tail (length names) (labels d) → x ∈ labels d) as Hsub.
  { intros x. unfold py_tail. destruct (Nat.eqb (length names) 0); [done|].
    apply subseteq_drop. }
  unfold draws, map_lookups. cbn [res_mapM].
  destruct (decide (NoDup names)) as [Hnd|Hdup].
  - assert (NoDup (labels d)) as Hndl by (rewrite Hlab; by apply NoDup_cons).
    destruct (res_mapM_ok
                (λ x, plot_vector d x;; plot_vector d (VStr "index");; mret tt)
                (py_tail (length names) (labels d))) as [bs ->]; [|done].
    intros x Hx.
    destruct (plot_vector_once d x Hndl (Hsub x Hx)) as [cells ->].
    destruct (plot_vector_once d (VStr "index") Hndl Hindex) as [cells' ->].
    by eexists.
  - assert (py_tail (length names) (labels d) = names) as ->.
    { rewrite Hlab. unfold py_tail.
      destruct (Nat.eqb_spec (length names) 0) as [Hz|Hz].
      { destruct names; [|done]. destruct Hdup. constructor. }
      cbn [length]. by replace (S (length names) - length names) with 1 by lia. }
    rewrite (res_mapM_raise _ names ValueError); [done| |].
    + intros x Hx.
      destruct (plot_vector_found d x) as [[cells ->]| ->];
        [rewrite Hlab; by right| |by right].
      destruct (plot_vector_found d (VStr "index") Hindex) as [[cells' ->]| ->];
        [left; by eexists|by right].
    + assert (∃ params, cols d = (ix, snd (default (ix, []) (head (cols d)))) :: params
                        ∧ map fst params = names) as (params & Hcols & Hpar).
      { unfold labels in Hlab. destruct (cols d) as [|c0 params]; [done|].
        injection Hlab as Hc0 Hpar. exists params. split; [|done].
        cbn. destruct c0. cbn in Hc0. by rewrite Hc0. }
      destruct (filter_label_twice params) as (key & c1 & c2 & rest & Hkey & Hf).
      { by rewrite Hpar. }
      exists key. split; [by rewrite <- Hpar|].
      assert (plot_vector d key = Raise ValueError) as ->; [|done].
      rewrite plot_vector_cases, Hcols, filter_cons, Hf.
      by destruct (decide _).
Qed.

(** Drawing adds one condition to reshaping: no name twice. *)
Lemma render_spec names n t :
  render names n (length names) t =
    match reshape names n t with
    | Ok d => if decide (NoDup names) then Ok d else Raise ValueError
    | Raise e => Raise e
    end.
Proof.
  unfold render. destruct (reshape names n t) as [d|e] eqn:Hd;
    cbn [mbind res_bind]; [|done].
  rewrite (draws_reshaped _ _ _ _ Hd). by destruct (decide (NoDup names)).
Qed.

Lemma render_reshape names n p t d :
  render names n p t = Ok d → reshape names n t = Ok d.
Proof.
  unfold render. destruct (reshape names n t) as [d'|e]; cbn [mbind res_bind];
    [|done].
  destruct (draws p d') as [[]|e]; cbn [mbind res_bind]; [|done].
  by intros [= <-].
Qed.


Lemma render_names names n t d :
  render names n (length names) t = Ok d → NoDup names.
Proof.
  rewrite render_spec. destruct (reshape names n t); [|done].
  by destruct (decide (NoDup names)).
Qed.

(** ** The function as a whole *)

Lemma plot_unfold a w :
  moment_sensitivity_plot a w =
    match arg_list a !! 0 with
    | None => (w, Raise IndexError)
    | Some l0 =>
      match heap w !! l0 with
      | None => (w, Raise ReferenceError)
      | Some t0 =>
        match name_list t0 with
        | Raise e => (w, Raise e)
        | Ok names =>
          match for_each (seq 0 (length (arg_list a)))
                  (plot_one (arg_list a) (length (arg_list a)) (length names) names) w
          with
          | (w', Ok _) => (w', Ok "Figures saved.")
          | (w', Raise e) => (w', Raise e)
          end
        end
      end
    end.
Proof.
  unfold moment_sensitivity_plot.
  change (match a with ArgFrame t => [t] | ArgList ts => ts end) with (arg_list a).
  unfold lift, list_getitem, load, name_list, for_range, mbind, mret, M_bind, M_ret.
  destruct (arg_list a !! 0) as [l0|]; [|done].
  destruct (heap w !! l0) as [t0|]; [|done].
  destruct (getitem t0 (VStr "name")) as [sel|e]; [|done]. cbn.
  destruct (to_list sel) as [names|e]; [|done].
  by destruct (for_each _ _ w) as [w' [[]|e]].
Qed.

Lemma plot_run a w w' r l0 t0 names :
  arg_ok w a →
  arg_list a !! 0 = Some l0 → heap w !! l0 = Some t0 → name_list t0 = Ok names →
  moment_sensitivity_plot a w = (w', r) →
  heap w `prefix_of` heap w' ∧
  ∃ fs, files w' = files w ++ fs ∧
    (∀ k f, fs !! k = Some f →
       produced (arg_list a) (length (arg_list a)) (length names) names w w' k f) ∧
    match r with
    | Ok msg => msg = "Figures saved." ∧ length fs = length (arg_list a)
    | Raise e => ∃ l t,
        arg_list a !! length fs = Some l ∧ heap w !! l = Some t ∧
        render names (length (arg_list a)) (length names) t = Raise e
    end.
Proof.
  intros Hok H0 Hl0 Hnames. rewrite plot_unfold, H0, Hl0, Hnames.
  destruct (for_each _ _ w) as [w1 r1] eqn:Hloop.
  apply for_each_run in Hloop as (Hh & fs & Hfs & Hall & Hr).
  2: { intros i Hi. apply elem_of_seq in Hi as [_ Hi]. cbn in Hi.
       destruct (lookup_lt_is_Some_2 (arg_list a) i Hi) as [l Hl].
       exists l. split; [done|]. by eapply (Forall_lookup_1 _ _ _ _ Hok). }
  assert (∀ k f, fs !! k = Some f →
    produced (arg_list a) (length (arg_list a)) (length names) names w w1 k f) as Hall'.
  { intros k f Hk. destruct (Hall k f Hk) as (i & Hi & Hp).
    apply lookup_seq in Hi as [-> _]. done. }
  destruct r1 as [[]|e]; intros [= <- <-].
  - split; [done|]. exists fs. repeat split; try done.
    by rewrite Hr, length_seq.
  - split; [done|]. exists fs. repeat split; try done.
    destruct Hr as (i & l & t & Hi & Hs & Hl & Hre).
    apply lookup_seq in Hi as [-> _]. by exists l, t.
Qed.

(** A run only adds objects to the store and figures to the files. *)
Lemma plot_extends a w :
  heap w `prefix_of` heap (fst (moment_sensitivity_plot a w)) ∧
  files w `prefix_of` files (fst (moment_sensitivity_plot a w)).
Proof.
  rewrite plot_unfold.
  destruct (arg_list a !! 0) as [l0|]; [|done].
  destruct (heap w !! l0) as [t0|]; [|done].
  destruct (name_list t0) as [names|e]; [|done].
  pose proof (for_each_extends (arg_list a) (length (arg_list a)) (length names)
                names (seq 0 (length (arg_list a))) w) as H.
  by destruct (for_each _ _ w) as [w' [[]|e]].
Qed.

Lemma new_files_app w w' fs : files w' = files w ++ fs → new_files w w' = fs.
Proof. intros H. unfold new_files. rewrite H. apply drop_app_length. Qed.

Lemma getitem_missing t key : key ∉ labels t → getitem t key = Raise KeyError.
Proof.
  intros Hno. unfold getitem. by rewrite filter_label_missing.
Qed.

(** A table whose first column is its only [name] column. *)
Lemma name_list_first rows cells (cs : list column) :
  VStr "name" ∉ map fst cs →
  name_list (mkDataFrame rows ((VStr "name", cells) :: cs)) = Ok cells.
Proof.
  intros Hno. unfold name_list, getitem. cbn [cols].
  rewrite filter_cons, decide_True by done.
  by rewrite filter_label_missing.
Qed.


(** ** Titles *)

Lemma title_zip axs ts :
  map title (zip_with style_axes axs ts) = take (length axs) ts.
Proof.
  revert ts. induction axs as [|ax axs IH]; intros [|t ts]; cbn; try done.
  by rewrite IH.
Qed.

Lemma title_untitled k axs :
  Forall (λ ax, title ax = "") axs →
  map title (drop k axs) = replicate (length axs - k) "".
Proof.
  intros H. revert k. induction H as [|ax axs Hax _ IH]; intros [|k]; cbn; try done.
  f_equal; [done|]. specialize (IH 0). by rewrite drop_0, Nat.sub_0_r in IH.
Qed.

(** A saved figure has one subplot per x variable; [zip] hands the fixed
    titles to the first three and leaves the others untitled. *)
Lemma figure_titles df xs i :
  x_vars (figure df xs i) = xs ∧
  length (axes (figure df xs i)) = length xs ∧
  map title (axes (figure df xs i))
  = take (length xs) titles ++ replicate (length xs - 3) "".
Proof.
  unfold figure, set_suptitle, despine, title_axes, grid_set_labels, stripped,
    PairGrid.
  cbn [axes x_vars y_vars data despine_bottom suptitle imap mjoin list_join length].
  rewrite app_nil_r.
  set (axs := map _ (map stripplot_h (imap _ xs))).
  assert (length axs = length xs) as Hlen
    by (unfold axs; by rewrite !length_map, length_imap).
  split; [done|]. split.
  - rewrite length_app, length_zip_with, length_drop. cbn. lia.
  - rewrite map_app, title_zip, Hlen. f_equal.
    rewrite title_untitled, Hlen; [done|].
    apply Forall_lookup. intros j ax Hj. unfold axs in Hj.
    change (map ?f ?l) with (f <$> l) in Hj.
    rewrite !list_lookup_fmap, list_lookup_imap in Hj.
    destruct (xs !! j); cbn in Hj; [|done]. by injection Hj as <-.
Qed.

(** ** Determinism *)

(** No figure is shown for a table that fails to be reshaped and drawn. *)
Lemma shown_before_failure a w0 names obs k e :
  shows_figures a w0 names obs →
  ends_after a w0 names k (Raise e) →
  length obs ≤ k.
Proof.
  intros Hfig (l & t & Hl & Ht & He).
  destruct (decide (length obs ≤ k)) as [|Hgt]; [done|].
  destruct (lookup_lt_is_Some_2 obs k) as [o Ho]; [lia|].
  destruct (Hfig _ _ Ho) as (l' & t' & d & Hl' & Ht' & Hd & _). congruence.
Qed.

(** What a run shows is fixed by the tables of its argument. *)
Lemma run_shows_unique a w0 names obs1 r1 obs2 r2 :
  run_shows a w0 names obs1 r1 → run_shows a w0 names obs2 r2 →
  r1 = r2 ∧ obs1 = obs2.
Proof.
  intros [Hfig1 Hend1] [Hfig2 Hend2].
  assert (length obs1 = length obs2) as Hlen.
  { destruct r1 as [m1|e1], r2 as [m2|e2].
    - destruct Hend1 as [_ ->], Hend2 as [_ ->]. done.
    - pose proof (shown_before_failure _ _ _ _ _ _ Hfig1 Hend2).
      destruct Hend1 as [_ Hn]. destruct Hend2 as (l & t & Hl & _).
      apply lookup_lt_Some in Hl. lia.
    - pose proof (shown_before_failure _ _ _ _ _ _ Hfig2 Hend1).
      destruct Hend2 as [_ Hn]. destruct Hend1 as (l & t & Hl & _).
      apply lookup_lt_Some in Hl. lia.
    - pose proof (shown_before_failure _ _ _ _ _ _ Hfig1 Hend2).
      pose proof (shown_before_failure _ _ _ _ _ _ Hfig2 Hend1). lia. }
  split.
  - destruct r1 as [m1|e1], r2 as [m2|e2].
    + destruct Hend1 as [-> _], Hend2 as [-> _]. done.
    + destruct Hend1 as [_ Hn]. destruct Hend2 as (l & t & Hl & _).
      apply lookup_lt_Some in Hl. lia.
    + destruct Hend2 as [_ Hn]. destruct Hend1 as (l & t & Hl & _).
      apply lookup_lt_Some in Hl. lia.
    + destruct Hend1 as (l & t & Hl & Ht & He).
      destruct Hend2 as (l' & t' & Hl' & Ht' & He').
      rewrite Hlen in Hl. congruence.
  - apply list_eq. intros k.
    destruct (obs1 !! k) as [o1|] eqn:H1, (obs2 !! k) as [o2|] eqn:H2.
    + destruct (Hfig1 _ _ H1) as (l & t & d & Hl & Ht & Hd & ->).
      destruct (Hfig2 _ _ H2) as (l' & t' & d' & Hl' & Ht' & Hd' & ->).
      assert (d' = d) as -> by congruence. done.
    + apply lookup_lt_Some in H1. apply lookup_ge_None in H2. lia.
    + apply lookup_lt_Some in H2. apply lookup_ge_None in H1. lia.
    + done.
Qed.

(** A run in a world that agrees with [w0] on the tables of the argument
    shows what [run_shows] describes. *)
Lemma plot_run_shows a w0 w w' r l0 t0 names :
  arg_ok w0 a →
  (∀ l, l ∈ arg_list a → heap w !! l = heap w0 !! l) →
  arg_list a !! 0 = Some l0 → heap w0 !! l0 = Some t0 → name_list t0 = Ok names →
  moment_sensitivity_plot a w = (w', r) →
  run_shows a w0 names (map (observe w') (new_files w w')) r.
Proof.
  intros Hok0 Hagree H0 Hl0 Hnames Hrun.
  assert (arg_ok w a) as Hok.
  { apply Forall_forall. intros l Hl. rewrite (Hagree l Hl).
    by apply (proj1 (Forall_forall _ _) Hok0). }
  assert (heap w !! l0 = Some t0) as Hl0'.
  { rewrite Hagree; [done|]. by eapply list_elem_of_lookup_2. }
  destruct (plot_run _ _ _ _ _ _ _ Hok H0 Hl0' Hnames Hrun)
    as (_ & fs & Hfs & Hall & Hr).
  rewrite (new_files_app _ _ _ Hfs). split.
  - intros k o Hk. change (map ?f ?l) with (f <$> l) in Hk.
    rewrite list_lookup_fmap in Hk.
    destruct (fs !! k) as [f|] eqn:Hf; [|done]. injection Hk as <-.
    destruct (Hall k f Hf) as (l & t & d & Hl & Ht & Hd & Htab & Hfig).
    exists l, t, d. rewrite <- (Hagree l) by (by eapply list_elem_of_lookup_2).
    repeat split; try done.
    unfold observe. rewrite Htab. destruct f as [fn g]. cbn [fst snd] in *.
    injection Hfig as -> Hg. by rewrite Hg.
  - rewrite length_map. destruct r as [msg|e]; [done|].
    destruct Hr as (l & t & Hl & Ht & He). exists l, t.
    rewrite <- (Hagree l) by (by eapply list_elem_of_lookup_2). done.
Qed.

(** ** The absolute-value statement *)

(** Line 27 on a reference: the object is overwritten when every trailing
    cell is a number, and nothing happens otherwise. *)
Lemma abs_tail_inplace_run df n w d :
  heap w !! df = Some d →
  abs_tail_inplace df n w =
    match absolute n d with
    | Ok d' => (mkWorld (<[df:=d']> (heap w)) (files w), Ok tt)
    | Raise e => (w, Raise e)
    end.
Proof.
  intros Hd. unfold abs_tail_inplace, load, lift, store, absolute.
  unfold mbind, mret, M_bind, M_ret. rewrite Hd.
  by destruct (frame_abs (iloc_tail n d)).
Qed.


(** * The claims *)

(** C1, as the code has it. The names are read once, from the first table,
    before the loop. On a successful run there is one figure per table, and
    the table behind the figure at position [i] is the reshaped table of the
    [i]-th argument: its columns are the index column followed by columns
    labelled with the first table's [name] values, in their order. *)
Theorem columns_named_after_first_table a w w' r l0 t0 names :
  arg_ok w a →
  arg_list a !! 0 = Some l0 →
  heap w !! l0 = Some t0 →
  name_list t0 = Ok names →
  moment_sensitivity_plot a w = (w', r) →
  (∀ msg, r = Ok msg → length (new_files w w') = length (arg_list a)) ∧
  ∀ i f, new_files w w' !! i = Some f →
    ∃ l t d ix,
      arg_list a !! i = Some l ∧ heap w !! l = Some t ∧
      reshape names (length (arg_list a)) t = Ok d ∧
      table_of w' f = Some d ∧
      (ix = VStr "index" ∨ ix = VStr "level_0") ∧
      labels d = ix :: names.
Proof.
  intros Hok H0 Hl0 Hnames Hrun.
  destruct (plot_run _ _ _ _ _ _ _ Hok H0 Hl0 Hnames Hrun)
    as (_ & fs & Hfs & Hall & Hr).
  rewrite (new_files_app _ _ _ Hfs). split.
  - intros msg ->. by destruct Hr as [_ ->].
  - intros i f Hf. destruct (Hall i f Hf) as (l & t & d & Hl & Ht & Hd & Htab & _).
    apply render_reshape in Hd.
    destruct (reshape_labels _ _ _ _ Hd) as (ix & Hix & Hlab).
    by exists l, t, d, ix.
Qed.

Lemma columns_named_after_first_table_witness :
  (∀ msg, snd (moment_sensitivity_plot (ArgList [0; 1]) world_ab_cd) = Ok msg →
     length (new_files world_ab_cd
               (fst (moment_sensitivity_plot (ArgList [0; 1]) world_ab_cd)))
     = 2) ∧
  ∀ i f,
    new_files world_ab_cd
      (fst (moment_sensitivity_plot (ArgList [0; 1]) world_ab_cd)) !! i = Some f →
    ∃ l t d ix,
      [0; 1] !! i = Some l ∧ heap world_ab_cd !! l = Some t ∧
      reshape [VStr "a"; VStr "b"] 2 t = Ok d ∧
      table_of (fst (moment_sensitivity_plot (ArgList [0; 1]) world_ab_cd)) f
      = Some d ∧
      (ix = VStr "index" ∨ ix = VStr "level_0") ∧
      labels d = ix :: [VStr "a"; VStr "b"].
Proof.
  apply (columns_named_after_first_table (ArgList [0; 1]) world_ab_cd _
           (snd (moment_sensitivity_plot (ArgList [0; 1]) world_ab_cd))
           0 table_ab [VStr "a"; VStr "b"]).
  - repeat (constructor; [by eexists|]). constructor.
  - reflexivity.
  - reflexivity.
  - reflexivity.
  - vm_compute. reflexivity.
Defined.

(** C1, as stated, fails: the second table names its parameters [c] and [d],
    and its reshaped table is labelled [a] and [b] all the same. *)
Lemma second_table_keeps_first_names :
  ∃ w' f d,
    moment_sensitivity_plot (ArgList [0; 1]) world_ab_cd = (w', Ok "Figures saved.") ∧
    new_files world_ab_cd w' !! 1 = Some f ∧
    table_of w' f = Some d ∧
    heap world_ab_cd !! 1 = Some table_cd ∧
    name_list table_cd = Ok [VStr "c"; VStr "d"] ∧
    labels d = [VStr "index"; VStr "a"; VStr "b"] ∧
    ¬ ∃ ix, labels d = ix :: [VStr "c"; VStr "d"].
Proof.
  do 3 eexists. split; [vm_compute; reflexivity|].
  split; [reflexivity|]. split; [reflexivity|].
  split; [reflexivity|]. split; [reflexivity|]. split; [reflexivity|].
  intros [ix Hix]. discriminate Hix.
Qed.







(** C4, as the code has it. For a single table, alone or in a list, with
    [name] column [a, b, c] and one measure column [-1, 2, -3] labelled [m],
    the function saves one figure, "sensitivity_plot1.png", drawn over
    the variables [a], [b], [c].  The reshaped table has exactly one row and
    four columns: the index column, which holds the label [m], and then the
    columns [a], [b], [c] with the values 1, 2, 3. *)
Theorem scenario_one_table a w l rows m :
  arg_list a = [l] →
  heap w !! l = Some (mkDataFrame rows
                        [ (VStr "name", [VStr "a"; VStr "b"; VStr "c"]);
                          (m, [VInt (-1); VInt 2; VInt (-3)]) ]) →
  length rows = 3 →
  m ≠ VStr "name" →
  ∃ w' g,
    moment_sensitivity_plot a w = (w', Ok "Figures saved.") ∧
    new_files w w' = [("sensitivity_plot1.png", g)] ∧
    x_vars g = [VStr "a"; VStr "b"; VStr "c"] ∧
    table_of w' ("sensitivity_plot1.png", g)
    = Some (mkDataFrame [VInt 0]
              [ (VStr "index", [m]);
                (VStr "a", [VInt 1]); (VStr "b", [VInt 2]); (VStr "c", [VInt 3]) ]).
Proof.
  intros Ha Hl Hrows Hm.
  destruct rows as [|r0 [|r1 [|r2 [|? ?]]]]; try done.
  set (d1 := mkDataFrame [r0; r1; r2]
               [ (VStr "name", [VStr "a"; VStr "b"; VStr "c"]);
                 (m, [VInt 1; VInt 2; VInt 3]) ]).
  set (d4 := mkDataFrame [VInt 0]
               [ (VStr "index", [m]);
                 (VStr "a", [VInt 1]); (VStr "b", [VInt 2]); (VStr "c", [VInt 3]) ]).
  set (g := figure (S (length (heap w))) [VStr "a"; VStr "b"; VStr "c"] 0).
  exists (mkWorld (heap w ++ [d1; d4]) (files w ++ [("sensitivity_plot1.png", g)])), g.
  split; [|split; [|split]].
  - rewrite plot_unfold, Ha. cbn [lookup list_lookup]. rewrite Hl.
    rewrite name_list_first.
    2: { cbn. intros Hin. apply list_elem_of_singleton in Hin. done. }
    cbn [length seq for_each]. unfold mbind, mret, M_bind, M_ret.
    erewrite plot_one_run; [|reflexivity|exact Hl]. reflexivity.
  - by apply new_files_app.
  - reflexivity.
  - unfold table_of. cbn [snd heap data g figure set_suptitle despine title_axes
      grid_set_labels stripped PairGrid].
    rewrite lookup_app_r by lia.
    by replace (S (length (heap w)) - length (heap w)) with 1 by lia.
Qed.

Lemma scenario_one_table_witness :
  ∃ w' g,
    moment_sensitivity_plot (ArgFrame 0) scenario_world = (w', Ok "Figures saved.") ∧
    new_files scenario_world w' = [("sensitivity_plot1.png", g)] ∧
    x_vars g = [VStr "a"; VStr "b"; VStr "c"] ∧
    table_of w' ("sensitivity_plot1.png", g)
    = Some (mkDataFrame [VInt 0]
              [ (VStr "index", [VStr "m"]);
                (VStr "a", [VInt 1]); (VStr "b", [VInt 2]); (VStr "c", [VInt 3]) ]).
Proof.
  apply (scenario_one_table (ArgFrame 0) scenario_world 0 (range_index 3) (VStr "m")).
  - reflexivity.
  - reflexivity.
  - reflexivity.
  - discriminate.
Defined.

(** C4, as stated, fails on the column count: the reshaped table of the
    scenario has the four columns [index], [a], [b], [c], not three. *)
Lemma scenario_table_has_four_columns :
  ∃ w' g d,
    moment_sensitivity_plot (ArgFrame 0) scenario_world = (w', Ok "Figures saved.") ∧
    new_files scenario_world w' = [("sensitivity_plot1.png", g)] ∧
    table_of w' ("sensitivity_plot1.png", g) = Some d ∧
    labels d = [VStr "index"; VStr "a"; VStr "b"; VStr "c"] ∧
    ncols d ≠ 3.
Proof.
  do 3 eexists. split; [vm_compute; reflexivity|].
  split; [reflexivity|]. split; [reflexivity|]. split; [reflexivity|].
  vm_compute. lia.
Qed.

(** C5. Every table object that exists before the call is the same after
    it, whatever the call does and however it ends: the function writes
    only to the copies it makes. *)
Theorem inputs_unchanged a w w' r l t :
  moment_sensitivity_plot a w = (w', r) →
  heap w !! l = Some t →
  heap w' !! l = Some t.
Proof.
  intros Hrun Hl. pose proof (plot_extends a w) as [Hh _].
  rewrite Hrun in Hh. by eapply prefix_lookup_Some.
Qed.

Lemma inputs_unchanged_witness :
  heap (fst (moment_sensitivity_plot (ArgList [0; 1]) world_ab_cd)) !! 1
  = Some table_cd.
Proof.
  apply (inputs_unchanged (ArgList [0; 1]) world_ab_cd _
           (snd (moment_sensitivity_plot (ArgList [0; 1]) world_ab_cd))).
  - vm_compute. reflexivity.
  - reflexivity.
Defined.



(** C7, as the code has it. When the first table has no [name] column the
    function raises [KeyError] before any table is processed, and leaves
    the world as it was: nothing is copied and nothing is saved. *)
Theorem first_table_without_name a w l0 t0 :
  arg_list a !! 0 = Some l0 →
  heap w !! l0 = Some t0 →
  VStr "name" ∉ labels t0 →
  moment_sensitivity_plot a w = (w, Raise KeyError).
Proof.
  intros H0 Hl0 Hno. rewrite plot_unfold, H0, Hl0.
  unfold name_list. by rewrite (getitem_missing _ _ Hno).
Qed.

Lemma first_table_without_name_witness :
  moment_sensitivity_plot (ArgList [1; 0]) world_ab_xy
  = (world_ab_xy, Raise KeyError).
Proof.
  apply (first_table_without_name (ArgList [1; 0]) world_ab_xy 1 table_xy).
  - reflexivity.
  - reflexivity.
  - apply (bool_decide_unpack _). vm_compute. exact I.
Defined.

(** C7, as stated, fails: a list whose second table has no [name] column is
    plotted without any error. *)
Lemma later_table_without_name_is_plotted :
  getitem table_xy (VStr "name") = Raise KeyError ∧
  ∃ w', moment_sensitivity_plot (ArgList [0; 1]) world_ab_xy
        = (w', Ok "Figures saved.").
Proof. split; [reflexivity|]. eexists. vm_compute. reflexivity. Qed.

(** C8. A single table that is not wrapped in a list is processed as the
    list holding just that table: the two calls are the same computation,
    in every world. *)
Theorem single_table_is_singleton_list t w :
  moment_sensitivity_plot (ArgFrame t) w = moment_sensitivity_plot (ArgList [t]) w.
Proof. reflexivity. Qed.

(** C9. Two calls in a row on the same argument end the same way, and show
    the same figures in the same order: the same file names, drawn from
    equal reshaped tables (same shape, same labels, same cells), with the
    same variables, titles and styling.  Only the identity of the table
    objects differs, since each call makes its own copies. *)
Theorem repeated_call_shows_the_same a w w1 r1 w2 r2 :
  arg_ok w a →
  moment_sensitivity_plot a w = (w1, r1) →
  moment_sensitivity_plot a w1 = (w2, r2) →
  r1 = r2 ∧
  map (observe w1) (new_files w w1) = map (observe w2) (new_files w1 w2).
Proof.
  intros Hok Hrun1 Hrun2.
  pose proof (plot_extends a w) as [Hpre _]. rewrite Hrun1 in Hpre. cbn in Hpre.
  assert (∀ l, l ∈ arg_list a → heap w1 !! l = heap w !! l) as Hagree.
  { intros l Hl. destruct (proj1 (Forall_forall _ _) Hok l Hl) as [t Ht].
    rewrite Ht. by eapply prefix_lookup_Some. }
  destruct (arg_list a !! 0) as [l0|] eqn:H0.
  2: { rewrite plot_unfold, H0 in Hrun1. injection Hrun1 as <- <-.
       rewrite plot_unfold, H0 in Hrun2. injection Hrun2 as <- <-. done. }
  destruct (proj1 (Forall_forall _ _) Hok l0) as [t0 Hl0];
    [by eapply list_elem_of_lookup_2|].
  destruct (name_list t0) as [names|e] eqn:Hnames.
  2: { rewrite plot_unfold, H0, Hl0, Hnames in Hrun1. injection Hrun1 as <- <-.
       rewrite plot_unfold, H0, Hl0, Hnames in Hrun2. injection Hrun2 as <- <-.
       done. }
  eapply (run_shows_unique a w names).
  - by eapply (plot_run_shows a w w).
  - by eapply (plot_run_shows a w w1).
Qed.

Lemma repeated_call_shows_the_same_witness :
  let run1 := moment_sensitivity_plot (ArgList [0; 1]) world_ab_cd in
  let run2 := moment_sensitivity_plot (ArgList [0; 1]) (fst run1) in
  snd run1 = snd run2 ∧
  map (observe (fst run1)) (new_files world_ab_cd (fst run1))
  = map (observe (fst run2)) (new_files (fst run1) (fst run2)).
Proof.
  apply (repeated_call_shows_the_same (ArgList [0; 1]) world_ab_cd).
  - repeat (constructor; [by eexists|]). constructor.
  - vm_compute. reflexivity.
  - vm_compute. reflexivity.
Defined.

(** C10. Called with an empty list, the function raises [IndexError] at
    [sensitivity[0]], before any table is copied and before any figure is
    saved: the world is returned as it was. *)
Theorem empty_list_raises_index_error w :
  moment_sensitivity_plot (ArgList []) w = (w, Raise IndexError).
Proof. reflexivity. Qed.

(** * Further properties *)

Example version_is_0_0 : version = "0.0".
Proof. reflexivity. Qed.

Example split_keeps_empty_pieces : split dot "a..b." = ["a"; ""; "b"; ""].
Proof. reflexivity. Qed.

(** ** Splitting and joining *)

Lemma split_nonempty sep s : split sep s ≠ [].
Proof.
  destruct s as [|c s]; cbn; [done|].
  destruct (bool_decide (c = sep)); [done|]. by destruct (split sep s).
Qed.

Lemma join_cons_char sep c p ps :
  join sep (String c p :: ps) = String c (join sep (p :: ps)).
Proof. by destruct ps. Qed.

(** Joining the pieces with the separator gives the string back. *)
Lemma join_split sep s : join (String sep EmptyString) (split sep s) = s.
Proof.
  induction s as [|c s IH]; cbn [split]; [done|].
  pose proof (split_nonempty sep s) as Hne.
  destruct (bool_decide_reflect (c = sep)) as [->|Hc].
  - destruct (split sep s) as [|p ps]; [done|].
    change (join (String sep EmptyString) (EmptyString :: p :: ps))
      with (String sep (join (String sep EmptyString) (p :: ps))).
    by rewrite IH.
  - destruct (split sep s) as [|p ps]; [done|].
    by rewrite join_cons_char, IH.
Qed.

Lemma split_free sep s : occurs sep s = false → split sep s = [s].
Proof.
  induction s as [|c s IH]; cbn; [done|].
  destruct (bool_decide (c = sep)); cbn; [done|]. intros H. by rewrite IH.
Qed.

Lemma split_app_sep sep x r :
  occurs sep x = false →
  split sep (x +:+ String sep r) = x :: split sep r.
Proof.
  induction x as [|c x IH].
  - intros _. change (EmptyString +:+ String sep r) with (String sep r).
    cbn [split]. by rewrite bool_decide_eq_true_2.
  - change (String c x +:+ String sep r) with (String c (x +:+ String sep r)).
    cbn [split occurs].
    destruct (bool_decide (c = sep)); cbn [orb]; [done|]. intros H. by rewrite IH.
Qed.

Lemma split_pieces_free sep s :
  Forall (λ p, occurs sep p = false) (split sep s).
Proof.
  induction s as [|c s IH]; cbn [split]; [by repeat constructor|].
  destruct (bool_decide_reflect (c = sep)) as [->|Hc].
  - by constructor.
  - pose proof (split_nonempty sep s) as Hne.
    destruct (split sep s) as [|p ps]; [done|].
    apply Forall_cons in IH as [Hp Hps]. constructor; [|done].
    cbn. by rewrite bool_decide_eq_false_2, Hp.
Qed.

(** Splitting the joined pieces gives the pieces back, when no piece holds
    the separator. *)
Lemma split_join sep l :
  l ≠ [] → Forall (λ p, occurs sep p = false) l →
  split sep (join (String sep EmptyString) l) = l.
Proof.
  induction l as [|x l IH]; [done|]. intros _ Hfree.
  apply Forall_cons in Hfree as [Hx Hl].
  destruct l as [|y l]; [by apply split_free|].
  change (join (String sep EmptyString) (x :: y :: l))
    with (x +:+ String sep (join (String sep EmptyString) (y :: l))).
  rewrite split_app_sep by done. f_equal. by apply IH.
Qed.

(** ** The version string *)

(** X11. The version is the release up to its second dot: "major.minor" of
    "major.minor.rest", whatever the rest holds. *)
Theorem version_major_minor major minor rest :
  occurs dot major = false →
  occurs dot minor = false →
  version_of (major +:+ "." +:+ minor +:+ "." +:+ rest) = major +:+ "." +:+ minor.
Proof.
  intros Ha Hb. unfold version_of.
  change (major +:+ "." +:+ minor +:+ "." +:+ rest)
    with (major +:+ String dot (minor +:+ String dot rest)).
  rewrite split_app_sep by done. rewrite split_app_sep by done.
  reflexivity.
Qed.

Lemma version_major_minor_witness :
  version_of ("0" +:+ "." +:+ "0" +:+ "." +:+ "31") = "0" +:+ "." +:+ "0".
Proof.
  apply (version_major_minor "0" "0" "31"); reflexivity.
Defined.

(** X12. A release with fewer than two dots is its own version. *)
Theorem version_of_short_release r :
  length (split dot r) ≤ 2 → version_of r = r.
Proof.
  intros Hlen. unfold version_of.
  rewrite take_ge by done. apply join_split.
Qed.

Lemma version_of_short_release_witness : version_of "1.2" = "1.2".
Proof.
  apply (version_of_short_release "1.2"). vm_compute. lia.
Defined.

(** X13. The version never has more than one dot, and taking the version of a
    version changes nothing. *)
Theorem version_of_idempotent r :
  length (split dot (version_of r)) ≤ 2 ∧
  version_of (version_of r) = version_of r.
Proof.
  assert (split dot (version_of r) = take 2 (split dot r)) as Hsplit.
  { unfold version_of. apply split_join.
    - pose proof (split_nonempty dot r). by destruct (split dot r).
    - apply Forall_take, split_pieces_free. }
  split.
  - rewrite Hsplit, length_take. lia.
  - unfold version_of at 1. rewrite Hsplit, take_take. done.
Qed.

(** ** Runs, case by case *)

Lemma new_files_same w : new_files w w = [].
Proof. unfold new_files. by apply drop_all. Qed.

(** Either the function stops before the loop, leaving the world as it
    was, or the first table names the parameters and the loop runs. *)
Lemma plot_run_cases a w w' r :
  arg_ok w a →
  moment_sensitivity_plot a w = (w', r) →
  (w' = w ∧ ∃ e, r = Raise e ∧
     ((arg_list a = [] ∧ e = IndexError) ∨
      ∃ l0 t0, arg_list a !! 0 = Some l0 ∧ heap w !! l0 = Some t0 ∧
               name_list t0 = Raise e)) ∨
  ∃ l0 t0 names,
    arg_list a !! 0 = Some l0 ∧ heap w !! l0 = Some t0 ∧
    name_list t0 = Ok names ∧
    (∀ k f, new_files w w' !! k = Some f →
       produced (arg_list a) (length (arg_list a)) (length names) names w w' k f) ∧
    match r with
    | Ok msg => msg = "Figures saved." ∧
                length (new_files w w') = length (arg_list a)
    | Raise e => ∃ l t,
        arg_list a !! length (new_files w w') = Some l ∧ heap w !! l = Some t ∧
        render names (length (arg_list a)) (length names) t = Raise e
    end.
Proof.
  intros Hok Hrun.
  destruct (arg_list a !! 0) as [l0|] eqn:H0.
  2: { left. rewrite plot_unfold, H0 in Hrun. injection Hrun as <- <-.
       split; [done|]. exists IndexError. split; [done|]. left.
       by destruct (arg_list a). }
  destruct (proj1 (Forall_forall _ _) Hok l0) as [t0 Hl0];
    [by eapply list_elem_of_lookup_2|].
  destruct (name_list t0) as [names|e] eqn:Hnames.
  2: { left. rewrite plot_unfold, H0, Hl0, Hnames in Hrun.
       injection Hrun as <- <-. split; [done|]. exists e. split; [done|].
       right. by exists l0, t0. }
  right. exists l0, t0, names.
  destruct (plot_run _ _ _ _ _ _ _ Hok H0 Hl0 Hnames Hrun)
    as (_ & fs & Hfs & Hall & Hr).
  by rewrite (new_files_app _ _ _ Hfs).
Qed.

(** ** File names *)

Lemma length_append s t :
  String.length (s +:+ t) = String.length s + String.length t.
Proof.
  induction s as [|c s IH]; [done|].
  change (String c s +:+ t) with (String c (s +:+ t)).
  cbn [String.length]. by rewrite IH.
Qed.

Lemma append_inj_r s1 s2 t : s1 +:+ t = s2 +:+ t → s1 = s2.
Proof.
  intros H.
  assert (String.length s1 = String.length s2) as Hlen.
  { apply (f_equal String.length) in H. rewrite !length_append in H. lia. }
  revert s2 H Hlen. induction s1 as [|c s1 IH]; intros [|c' s2] H Hlen;
    cbn in Hlen; try done.
  change (String c (s1 +:+ t) = String c' (s2 +:+ t)) in H.
  injection H as -> H. f_equal. apply IH; [done|lia].
Qed.

(** Different positions give different file names. *)
Lemma file_name_inj i j : file_name i = file_name j → i = j.
Proof.
  unfold file_name. intros H.
  apply (inj (String.app "sensitivity_plot")) in H.
  apply append_inj_r in H. apply (inj pretty) in H. lia.
Qed.

(** ** The index column *)

Lemma reset_index_label d d' :
  reset_index d = Ok d' →
  d' = mkDataFrame (range_index (nrows d))
         ((if contains d (VStr "index") then VStr "level_0" else VStr "index",
           idx d) :: cols d).
Proof.
  unfold reset_index.
  destruct (contains d (if contains d (VStr "index") then VStr "level_0"
                        else VStr "index")); [done|].
  by intros [= <-].
Qed.

(** The reshaped table, column by column: the index column holds the
    labels of the trailing columns, and is called "index" unless a parameter
    has that name. *)
Lemma reshape_columns names n t d :
  reshape names n t = Ok d →
  ∃ d1,
    absolute n t = Ok d1 ∧
    length names = nrows t ∧
    idx d = range_index (length (py_tail n (labels t))) ∧
    cols d =
      (if bool_decide (VStr "index" ∈ names) then VStr "level_0" else VStr "index",
       py_tail n (labels t)) ::
      zip_with (λ name (c : column), (name, snd c)) names
        (cols (tail_rows n (transpose d1))).
Proof.
  unfold reshape.
  destruct (absolute n t) as [d1|e] eqn:Habs; cbn [mbind res_bind]; [|done].
  destruct (set_columns _ names) as [d3|e] eqn:Hset; cbn [mbind res_bind]; [|done].
  intros Hreset. apply reset_index_label in Hreset as ->.
  unfold contains. rewrite (set_columns_labels _ _ _ Hset).
  apply set_columns_spec in Hset as [Hlen ->].
  rewrite transposed_tail_ncols in Hlen. unfold nrows in *. cbn [idx cols].
  rewrite (absolute_idx _ _ _ Habs) in Hlen.
  rewrite transposed_tail_idx, (absolute_labels _ _ _ Habs).
  by exists d1.
Qed.

(** ** Figures, one by one *)

(** X1. The figures of a call are numbered from 1 in the order of the tables,
    in the file name and in the title above the plot, and no two of them
    share a file name: a call never overwrites a figure of its own. *)
Theorem figures_numbered_and_distinct a w w' r :
  arg_ok w a →
  moment_sensitivity_plot a w = (w', r) →
  (∀ i f, new_files w w' !! i = Some f →
     i < length (arg_list a) ∧
     fst f = "sensitivity_plot" +:+ pretty (i + 1) +:+ ".png" ∧
     suptitle (snd f) = "Sensitivity " +:+ pretty (i + 1)) ∧
  NoDup (map fst (new_files w w')).
Proof.
  intros Hok Hrun.
  assert (∀ i f, new_files w w' !! i = Some f →
            i < length (arg_list a) ∧ fst f = file_name i ∧
            suptitle (snd f) = "Sensitivity " +:+ pretty (i + 1)) as Hnum.
  { destruct (plot_run_cases _ _ _ _ Hok Hrun)
      as [[-> _]|(l0 & t0 & names & _ & _ & _ & Hall & _)].
    { intros i f. by rewrite new_files_same. }
    intros i f Hf. destruct (Hall i f Hf) as (l & t & d & Hl & _ & _ & _ & Hfig).
    split; [by eapply lookup_lt_Some|]. by rewrite Hfig. }
  split; [exact Hnum|].
  apply NoDup_alt. intros i j x Hi Hj.
  change (map ?g ?l) with (g <$> l) in Hi, Hj.
  rewrite list_lookup_fmap in Hi, Hj.
  destruct (new_files w w' !! i) as [fi|] eqn:Hfi; [|done].
  destruct (new_files w w' !! j) as [fj|] eqn:Hfj; [|done].
  destruct (Hnum i fi Hfi) as (_ & Hni & _).
  destruct (Hnum j fj Hfj) as (_ & Hnj & _).
  cbn in Hi, Hj. apply file_name_inj. congruence.
Qed.

Lemma figures_numbered_and_distinct_witness :
  (∀ i f,
     new_files world_ab_cd
       (fst (moment_sensitivity_plot (ArgList [0; 1]) world_ab_cd)) !! i = Some f →
     i < 2 ∧
     fst f = "sensitivity_plot" +:+ pretty (i + 1) +:+ ".png" ∧
     suptitle (snd f) = "Sensitivity " +:+ pretty (i + 1)) ∧
  NoDup (map fst (new_files world_ab_cd
                    (fst (moment_sensitivity_plot (ArgList [0; 1]) world_ab_cd)))).
Proof.
  apply (figures_numbered_and_distinct (ArgList [0; 1]) world_ab_cd _
           (snd (moment_sensitivity_plot (ArgList [0; 1]) world_ab_cd))).
  - repeat (constructor; [by eexists|]). constructor.
  - vm_compute. reflexivity.
Defined.

(** The table at position [k] is the first that fails to be reshaped and
    drawn. *)
Lemma first_failure_run a w l0 t0 names k l t e :
  arg_ok w a →
  arg_list a !! 0 = Some l0 → heap w !! l0 = Some t0 → name_list t0 = Ok names →
  arg_list a !! k = Some l → heap w !! l = Some t →
  render names (length (arg_list a)) (length names) t = Raise e →
  (∀ i li ti, i < k → arg_list a !! i = Some li → heap w !! li = Some ti →
     ∃ di, render names (length (arg_list a)) (length names) ti = Ok di) →
  ∃ w' fs,
    moment_sensitivity_plot a w = (w', Raise e) ∧
    files w' = files w ++ fs ∧ length fs = k ∧
    ∀ i f, fs !! i = Some f →
      produced (arg_list a) (length (arg_list a)) (length names) names w w' i f.
Proof.
  intros Hok H0 Hl0 Hnames Hk Ht He Hbefore.
  destruct (moment_sensitivity_plot a w) as [w' r] eqn:Hrun.
  destruct (plot_run _ _ _ _ _ _ _ Hok H0 Hl0 Hnames Hrun)
    as (_ & fs & Hfs & Hall & Hr).
  assert (¬ k < length fs) as Hge.
  { intros Hlt. destruct (lookup_lt_is_Some_2 fs k Hlt) as [f Hf].
    destruct (Hall k f Hf) as (l' & t' & d & Hl' & Ht' & Hd & _). congruence. }
  destruct r as [msg|e'].
  { destruct Hr as [_ Hlen]. apply lookup_lt_Some in Hk. lia. }
  destruct Hr as (l' & t' & Hl' & Ht' & He').
  destruct (decide (length fs < k)) as [Hlt|Hnlt].
  { destruct (Hbefore _ _ _ Hlt Hl' Ht') as [d Hd]. congruence. }
  assert (length fs = k) as Hlen by lia. rewrite Hlen in Hl'.
  assert (e' = e) as -> by congruence.
  by exists w', fs.
Qed.

(** X2. A call is not all or nothing. When the table at position [k] is the
    first that fails to be reshaped and drawn, the call raises the error of
    that table, and the figures of the [k] tables before it, no more and no
    fewer, have been saved and stay. *)
Theorem figures_before_failure a w l0 t0 names k l t e :
  arg_ok w a →
  arg_list a !! 0 = Some l0 →
  heap w !! l0 = Some t0 →
  name_list t0 = Ok names →
  arg_list a !! k = Some l →
  heap w !! l = Some t →
  render names (length (arg_list a)) (length names) t = Raise e →
  (∀ i li ti, i < k → arg_list a !! i = Some li → heap w !! li = Some ti →
     ∃ di, render names (length (arg_list a)) (length names) ti = Ok di) →
  ∃ w',
    moment_sensitivity_plot a w = (w', Raise e) ∧
    length (new_files w w') = k ∧
    ∀ i f, new_files w w' !! i = Some f →
      fst f = "sensitivity_plot" +:+ pretty (i + 1) +:+ ".png" ∧
      ∃ li ti di,
        arg_list a !! i = Some li ∧ heap w !! li = Some ti ∧
        reshape names (length (arg_list a)) ti = Ok di ∧
        table_of w' f = Some di.
Proof.
  intros Hok H0 Hl0 Hnames Hk Ht He Hbefore.
  destruct (first_failure_run _ _ _ _ _ _ _ _ _ Hok H0 Hl0 Hnames Hk Ht He Hbefore)
    as (w' & fs & Hrun & Hfs & Hlen & Hall).
  exists w'. rewrite (new_files_app _ _ _ Hfs).
  split; [done|]. split; [done|].
  intros i f Hf.
  destruct (Hall i f Hf) as (li & ti & di & Hli & Hti & Hdi & Htab & Hfig).
  split; [by rewrite Hfig|].
  exists li, ti, di. repeat split; try done. by eapply render_reshape.
Qed.

Lemma figures_before_failure_witness :
  ∃ w',
    moment_sensitivity_plot (ArgList [0; 1]) world_ab_three = (w', Raise ValueError) ∧
    length (new_files world_ab_three w') = 1 ∧
    ∀ i f, new_files world_ab_three w' !! i = Some f →
      fst f = "sensitivity_plot" +:+ pretty (i + 1) +:+ ".png" ∧
      ∃ li ti di,
        [0; 1] !! i = Some li ∧ heap world_ab_three !! li = Some ti ∧
        reshape [VStr "a"; VStr "b"] 2 ti = Ok di ∧
        table_of w' f = Some di.
Proof.
  apply (figures_before_failure (ArgList [0; 1]) world_ab_three 0 table_ab
           [VStr "a"; VStr "b"] 1 1 table_three_rows ValueError).
  - repeat (constructor; [by eexists|]). constructor.
  - reflexivity.
  - reflexivity.
  - reflexivity.
  - reflexivity.
  - reflexivity.
  - reflexivity.
  - intros [|i] li ti Hi Hli Hti; [|lia].
    injection Hli as <-. injection Hti as <-. eexists. reflexivity.
Defined.

(** Duplicated names stop the call at the first table, in the plot: the
    reshaped table exists, and no figure of it. *)
Example duplicated_names_stop_the_plot :
  (∃ d, reshape [VStr "a"; VStr "a"] 1 table_aa = Ok d) ∧
  moment_sensitivity_plot (ArgFrame 0) world_aa
  = (mkWorld (heap world_aa ++
              [ mkDataFrame (range_index 2)
                  [ (VStr "name", [VStr "a"; VStr "a"]); (VStr "m", [VInt 1; VInt 2]) ];
                mkDataFrame [VInt 0]
                  [ (VStr "index", [VStr "m"]);
                    (VStr "a", [VInt 1]); (VStr "a", [VInt 2]) ] ]) [],
     Raise ValueError).
Proof. split; [by eexists|reflexivity]. Qed.

(** ** What is accepted and what is raised *)

Lemma accepts_spec a w :
  accepts w a = true ↔
  ∃ l0 t0 names,
    arg_list a !! 0 = Some l0 ∧ heap w !! l0 = Some t0 ∧
    name_list t0 = Ok names ∧ NoDup names ∧
    ∀ l, l ∈ arg_list a →
      ∃ t, heap w !! l = Some t ∧ reshapes names (length (arg_list a)) t = true.
Proof.
  unfold accepts. split.
  - destruct (arg_list a) as [|l0 ls] eqn:Hs; [done|].
    destruct (heap w !! l0) as [t0|] eqn:Hl0; [|done].
    destruct (name_list t0) as [names|e] eqn:Hnames; [|done].
    intros Hall. apply andb_prop in Hall as [Hnd Hall].
    apply bool_decide_eq_true in Hnd. rewrite forallb_forall in Hall.
    exists l0, t0, names. repeat split; try done.
    intros l Hl. apply list_elem_of_In, Hall in Hl.
    destruct (heap w !! l) as [t|]; [|done]. by exists t.
  - intros (l0 & t0 & names & H0 & Hl0 & Hnames & Hnd & Hall).
    destruct (arg_list a) as [|l0' ls] eqn:Hs; [done|].
    injection H0 as ->. rewrite Hl0, Hnames.
    apply andb_true_intro. split; [by apply bool_decide_eq_true|].
    apply forallb_forall. intros l Hl. apply list_elem_of_In in Hl.
    by destruct (Hall l Hl) as (t & -> & Hr).
Qed.

Lemma abs_value_raise cells e :
  res_mapM abs_value cells = Raise e → e = TypeError.
Proof.
  induction cells as [|v cells IH]; cbn; [done|].
  destruct v as [s|z]; cbn; [by intros [= <-]|].
  destruct (res_mapM abs_value cells); cbn; [done|].
  intros [= <-]. by apply IH.
Qed.

Lemma abs_column_raise cs e :
  res_mapM abs_column cs = Raise e → e = TypeError.
Proof.
  induction cs as [|c cs IH]; cbn; [done|].
  destruct (abs_column c) as [c'|e'] eqn:Hc; cbn.
  - destruct (res_mapM abs_column cs); cbn; [done|].
    intros [= <-]. by apply IH.
  - intros [= <-]. unfold abs_column in Hc.
    destruct (res_mapM abs_value (snd c)) eqn:Hv; cbn in Hc; [done|].
    injection Hc as <-. by eapply abs_value_raise.
Qed.

(** Line 27 raises nothing but [TypeError], and only over a cell that is
    not a number. *)
Lemma absolute_raise n t e :
  absolute n t = Raise e →
  e = TypeError ∧
  forallb (λ c : column, forallb is_number (snd c)) (py_tail n (cols t)) = false.
Proof.
  intros H. split.
  - unfold absolute, frame_abs, iloc_tail in H. cbn [cols idx] in H.
    destruct (res_mapM abs_column (py_tail n (cols t))) as [cs|e'] eqn:Hm;
      cbn in H; [done|].
    injection H as <-. by eapply abs_column_raise.
  - destruct (forallb _ (py_tail n (cols t))) eqn:Hnum; [|done].
    pose proof (proj2 (absolute_spec n t _) (conj Hnum eq_refl)). congruence.
Qed.

Lemma not_numeric_has_string (cs : list column) :
  forallb (λ c : column, forallb is_number (snd c)) cs = false →
  ∃ c v, c ∈ cs ∧ v ∈ snd c ∧ is_string v = true.
Proof.
  induction cs as [|c cs IH]; cbn; [done|].
  destruct (forallb is_number (snd c)) eqn:Hc; cbn.
  - intros H. destruct (IH H) as (c' & v & Hc' & Hv & Hs).
    exists c', v. split; [by right|done].
  - intros _. exists c.
    assert (∃ v, v ∈ snd c ∧ is_string v = true) as (v & Hv & Hs).
    { clear IH. induction (snd c) as [|v vs IHv]; cbn in Hc; [done|].
      destruct (is_number v) eqn:Hn; cbn in Hc.
      - destruct (IHv Hc) as (v' & Hv' & Hs'). exists v'. split; [by right|done].
      - exists v. split; [by left|]. unfold is_number in Hn.
        by destruct (is_string v). }
    exists v. split; [by left|done].
Qed.

(** The two ways in which a table fails to reshape. *)
Lemma reshape_raise names n t e :
  reshape names n t = Raise e →
  (e = TypeError ∧
   ∃ c v, c ∈ py_tail n (cols t) ∧ v ∈ snd c ∧ is_string v = true) ∨
  (e = ValueError ∧
   (length names ≠ nrows t ∨
    (VStr "index" ∈ names ∧ VStr "level_0" ∈ names))).
Proof.
  unfold reshape.
  destruct (absolute n t) as [d1|e1] eqn:Habs; cbn [mbind res_bind].
  2: { intros [= <-]. left. apply absolute_raise in Habs as [-> Hnum].
       split; [done|]. by apply not_numeric_has_string. }
  destruct (set_columns _ names) as [d3|e3] eqn:Hset; cbn [mbind res_bind].
  2: { intros [= <-]. right. unfold set_columns in Hset.
       rewrite transposed_tail_ncols in Hset.
       destruct (Nat.eqb_spec (length names) (nrows d1)) as [|Hne]; [done|].
       injection Hset as <-. split; [done|]. left.
       unfold nrows in *. by rewrite <- (absolute_idx _ _ _ Habs). }
  intros Hreset. right.
  pose proof (set_columns_labels _ _ _ Hset) as Hlab.
  unfold reset_index, contains in Hreset. rewrite Hlab in Hreset.
  destruct (bool_decide_reflect (VStr "index" ∈ names)) as [Hi|Hi].
  - destruct (bool_decide_reflect (VStr "level_0" ∈ names)) as [Hl|Hl]; [|done].
    injection Hreset as <-. split; [done|]. by right.
  - by destruct (bool_decide_reflect (VStr "index" ∈ names)).
Qed.

(** [df["name"].to_list()] fails in two ways: no such column, or several. *)
Lemma name_list_raise t e :
  name_list t = Raise e →
  (e = KeyError ∧ VStr "name" ∉ labels t) ∨
  (e = AttributeError ∧ 2 ≤ length (name_columns t)).
Proof.
  unfold name_list, getitem. fold (name_columns t).
  destruct (name_columns t) as [|c [|c' cs]] eqn:Hf; cbn; [|done|].
  - intros [= <-]. left. split; [done|]. intros Hin.
    apply list_elem_of_fmap in Hin as (c & Hc & Hin).
    assert (c ∈ name_columns t) as Hcf.
    { apply list_elem_of_filter. split; [|done].
      unfold has_label. by apply bool_decide_eq_true. }
    rewrite Hf in Hcf. by apply elem_of_nil in Hcf.
  - intros [= <-]. right. split; [done|]. cbn. lia.
Qed.

(** What makes [render] fail, and how. *)
Lemma render_fails names n t e :
  fails_with names n t e → render names n (length names) t = Raise e.
Proof.
  intros [[-> (c & v & Hc & Hv & Hs)]|(-> & Hnum & Hcause)]; rewrite render_spec.
  - destruct (reshape names n t) as [d|e] eqn:Hd.
    + exfalso. apply reshape_spec in Hd as (d1 & _ & Habs & _).
      apply absolute_spec in Habs as [Hnum _].
      rewrite forallb_forall in Hnum. apply list_elem_of_In, Hnum in Hc.
      rewrite forallb_forall in Hc. apply list_elem_of_In, Hc in Hv.
      unfold is_number in Hv. by rewrite Hs in Hv.
    + destruct (reshape_raise _ _ _ _ Hd) as [[-> _]|[-> Hcause]]; [done|].
      exfalso. unfold reshape in Hd.
      destruct (absolute n t) as [d1|e1] eqn:Habs; cbn [mbind res_bind] in Hd.
      * apply absolute_spec in Habs as [Hnum _].
        rewrite forallb_forall in Hnum. apply list_elem_of_In, Hnum in Hc.
        rewrite forallb_forall in Hc. apply list_elem_of_In, Hc in Hv.
        unfold is_number in Hv. by rewrite Hs in Hv.
      * apply absolute_raise in Habs as [-> _]. done.
  - destruct (reshape names n t) as [d|e] eqn:Hd.
    + destruct (decide (NoDup names)) as [Hnd|]; [|done]. exfalso.
      apply reshape_spec in Hd as (d1 & ix & _ & Hlen & Hix & Hfree & _).
      destruct Hcause as [Hne|[[Hi Hl]|Hdup]]; [done| |done].
      by destruct Hix as [->| ->].
    + destruct (reshape_raise _ _ _ _ Hd) as [[-> (c & v & Hc & Hv & Hs)]|[-> _]];
        [|done].
      exfalso. rewrite forallb_forall in Hnum. apply list_elem_of_In, Hnum in Hc.
      rewrite forallb_forall in Hc. apply list_elem_of_In, Hc in Hv.
      unfold is_number in Hv. by rewrite Hs in Hv.
Qed.

(** Several [name] columns select a frame, which has no [to_list]: the call
    ends before the loop. *)
Lemma several_name_columns a w l0 t0 :
  arg_list a !! 0 = Some l0 → heap w !! l0 = Some t0 →
  2 ≤ length (name_columns t0) →
  moment_sensitivity_plot a w = (w, Raise AttributeError).
Proof.
  intros H0 Hl0 Hdup. rewrite plot_unfold, H0, Hl0.
  unfold name_list, getitem. fold (name_columns t0).
  destruct (name_columns t0) as [|c [|c' cs]]; cbn in Hdup; [lia|lia|done].
Qed.

(** X3. The function returns only on the inputs that [accepts] describes: a
    non-empty list whose first table has one [name] column, which holds no
    name twice, and whose tables all have numbers in their trailing columns,
    as many rows as there are names, and a free label for the index column.
    It has then saved one figure per table, and what it returns is the
    confirmation. *)
Theorem accepted_inputs a w w' msg :
  arg_ok w a →
  moment_sensitivity_plot a w = (w', Ok msg) →
  accepts w a = true ∧ msg = "Figures saved." ∧
  length (new_files w w') = length (arg_list a).
Proof.
  intros Hok Hrun.
  destruct (plot_run_cases _ _ _ _ Hok Hrun)
    as [(_ & e & He & _)|(l0 & t0 & names & H0 & Hl0 & Hnames & Hall & Hmsg & Hlen)];
    [done|].
  split; [|done]. apply accepts_spec. exists l0, t0, names.
  split; [done|]. split; [done|]. split; [done|]. split.
  - destruct (lookup_lt_is_Some_2 (new_files w w') 0) as [f Hf].
    { rewrite Hlen. by eapply lookup_lt_Some. }
    destruct (Hall 0 f Hf) as (l & t & d & _ & _ & Hd & _).
    by eapply render_names.
  - intros l Hl. apply list_elem_of_lookup in Hl as [k Hk].
    destruct (lookup_lt_is_Some_2 (new_files w w') k) as [f Hf].
    { rewrite Hlen. by eapply lookup_lt_Some. }
    destruct (Hall k f Hf) as (l' & t & d & Hl' & Ht & Hd & _).
    assert (l' = l) as -> by congruence.
    exists t. split; [done|]. apply reshape_ok. exists d.
    by eapply render_reshape.
Qed.

Lemma accepted_inputs_witness :
  accepts world_ab_cd (ArgList [0; 1]) = true ∧
  "Figures saved." = "Figures saved." ∧
  length (new_files world_ab_cd
            (fst (moment_sensitivity_plot (ArgList [0; 1]) world_ab_cd))) = 2.
Proof.
  apply (accepted_inputs (ArgList [0; 1]) world_ab_cd).
  - repeat (constructor; [by eexists|]). constructor.
  - vm_compute. reflexivity.
Defined.

(** X4. What stops a call inside the loop, and with which exception.  The
    first table that is not reshaped and drawn ends the call, with the
    figures of the tables before it saved: with [TypeError] when a cell of
    its trailing [N] columns is a string; with [ValueError] when these cells
    are numbers and the table has another number of rows than there are
    names, or the names hold both "index" and "level_0", or a name stands
    twice. *)
Theorem raised_errors a w l0 t0 names k l t e :
  arg_ok w a →
  arg_list a !! 0 = Some l0 →
  heap w !! l0 = Some t0 →
  name_list t0 = Ok names →
  arg_list a !! k = Some l →
  heap w !! l = Some t →
  (∀ i li ti, i < k → arg_list a !! i = Some li → heap w !! li = Some ti →
     ∃ di, render names (length (arg_list a)) (length names) ti = Ok di) →
  fails_with names (length (arg_list a)) t e →
  ∃ w',
    moment_sensitivity_plot a w = (w', Raise e) ∧
    length (new_files w w') = k.
Proof.
  intros Hok H0 Hl0 Hnames Hk Ht Hbefore Hfail.
  apply render_fails in Hfail.
  destruct (first_failure_run _ _ _ _ _ _ _ _ _ Hok H0 Hl0 Hnames Hk Ht Hfail Hbefore)
    as (w' & fs & Hrun & Hfs & Hlen & _).
  exists w'. by rewrite (new_files_app _ _ _ Hfs).
Qed.

Lemma raised_errors_witness :
  ∃ w',
    moment_sensitivity_plot (ArgList [0; 0; 0]) world_ab = (w', Raise TypeError) ∧
    length (new_files world_ab w') = 0.
Proof.
  apply (raised_errors (ArgList [0; 0; 0]) world_ab 0 table_ab
           [VStr "a"; VStr "b"] 0 0 table_ab TypeError).
  - repeat (constructor; [by eexists|]). constructor.
  - reflexivity.
  - reflexivity.
  - reflexivity.
  - reflexivity.
  - reflexivity.
  - intros i li ti Hi. lia.
  - left. split; [reflexivity|].
    exists (VStr "name", [VStr "a"; VStr "b"]), (VStr "a").
    split; [by left|]. split; [by left|reflexivity].
Defined.

(** The same for a name that stands twice, and for a table with a row too
    many. *)
Example duplicated_names_raise_value_error :
  fails_with [VStr "a"; VStr "a"] 1 table_aa ValueError ∧
  snd (moment_sensitivity_plot (ArgFrame 0) world_aa) = Raise ValueError.
Proof.
  split; [|reflexivity]. right. split; [done|]. split; [reflexivity|].
  right; right. intros Hnd. apply NoDup_cons in Hnd as [Hin _].
  apply Hin. by left.
Qed.

Example row_mismatch_raises_value_error :
  fails_with [VStr "a"; VStr "b"] 2 table_three_rows ValueError ∧
  snd (moment_sensitivity_plot (ArgList [0; 1]) world_ab_three) = Raise ValueError.
Proof.
  split; [|reflexivity]. right. split; [done|]. split; [reflexivity|].
  left. cbn. lia.
Qed.

(** ** The cells of the reshaped table *)

(** [abs] on an [int64] is the absolute value, but for the smallest one,
    which it gives back. *)
Lemma abs64_int64 z :
  in_int64 z = true →
  abs64 z = if decide (z = int64_min) then int64_min else Z.abs z.
Proof.
  unfold in_int64, abs64, wrap64, int64_min. intros Hz.
  apply andb_prop in Hz as [Hlo Hhi].
  apply Z.leb_le in Hlo. apply Z.ltb_lt in Hhi.
  change (2 ^ 63)%Z with 9223372036854775808%Z in *.
  change (2 ^ 64)%Z with 18446744073709551616%Z.
  destruct (decide (z = - 9223372036854775808)%Z) as [->|Hne]; [done|].
  rewrite decide_False by done.
  destruct (Z.abs_spec z) as [[? ->]|[? ->]]; rewrite Z.mod_small by lia; lia.
Qed.

(** [abs] of one cell that is a number. *)
Lemma abs_cells_lookup cells j z :
  cells !! j = Some (VInt z) → abs_cells cells !! j = Some (VInt (abs64 z)).
Proof.
  intros H. unfold abs_cells. change (map ?f ?l) with (f <$> l).
  by rewrite list_lookup_fmap, H.
Qed.

(** After line 27 the trailing columns are the absolute values of what they
    were. *)
Lemma absolute_tail n t d1 :
  absolute n t = Ok d1 →
  py_tail n (cols d1)
  = map (λ c : column, (fst c, abs_cells (snd c))) (py_tail n (cols t)).
Proof.
  intros H. apply absolute_spec in H as [_ ->]. cbn [cols].
  unfold py_before_tail, py_tail. destruct (Nat.eqb n 0); [done|].
  rewrite length_app, length_take, length_map, length_drop.
  apply drop_app_length'. rewrite length_take. lia.
Qed.

(** The [j]-th column of the transposed tail is the [j]-th row of the
    trailing columns. *)
Lemma transposed_tail_lookup n d j r :
  idx d !! j = Some r →
  cols (tail_rows n (transpose d)) !! j
  = Some (r, map (λ c : column, default (VInt 0%Z) (snd c !! j))
               (py_tail n (cols d))).
Proof.
  intros Hr. unfold tail_rows, transpose. cbn [cols].
  change (map ?f ?l) with (f <$> l) at 1.
  rewrite list_lookup_fmap, list_lookup_imap, Hr. cbn.
  by rewrite py_tail_map.
Qed.

(** The column of the [j]-th name holds, trailing column by trailing column,
    the absolute value of the [j]-th cell. *)
Lemma reshape_cells names n t d j name :
  reshape names n t = Ok d →
  names !! j = Some name →
  cols d !! S j
  = Some (name,
          map (λ c : column, default (VInt 0%Z) (abs_cells (snd c) !! j))
              (py_tail n (cols t))).
Proof.
  intros Hd Hname.
  destruct (reshape_columns _ _ _ _ Hd) as (d1 & Habs & Hlen & _ & ->).
  rewrite lookup_cons.
  assert (is_Some (idx d1 !! j)) as [r Hr].
  { apply lookup_lt_is_Some_2. rewrite (absolute_idx _ _ _ Habs).
    unfold nrows in Hlen. rewrite <- Hlen. by eapply lookup_lt_Some. }
  rewrite lookup_zip_with, Hname, (transposed_tail_lookup _ _ _ _ Hr). cbn.
  rewrite (absolute_tail _ _ _ Habs), map_map. done.
Qed.

Lemma reshape_parameter_column names n t d j c :
  reshape names n t = Ok d →
  cols d !! S j = Some c →
  ∃ name, names !! j = Some name.
Proof.
  intros Hd Hc.
  destruct (reshape_columns _ _ _ _ Hd) as (d1 & _ & _ & _ & Hcols).
  rewrite Hcols, lookup_cons in Hc.
  apply lookup_zip_with_Some in Hc as (name & c0 & _ & Hname & _).
  by exists name.
Qed.

(** ** The subplots *)

Lemma figure_axes df xs i j ax :
  axes (figure df xs i) !! j = Some ax →
  xlabel ax = "" ∧ ylabel ax = "" ∧
  (j < 3 → titles !! j = Some (title ax) ∧
           xlim_left ax = Some 0%Z ∧ xgrid ax = false ∧ ygrid ax = true) ∧
  (3 ≤ j → title ax = "" ∧ xlim_left ax = None ∧
           xgrid ax = true ∧ ygrid ax = false).
Proof.
  unfold figure, set_suptitle, despine, title_axes, grid_set_labels, stripped,
    PairGrid.
  cbn [axes x_vars y_vars data despine_bottom suptitle imap mjoin list_join length].
  rewrite app_nil_r.
  set (axs := map _ (map stripplot_h (imap _ xs))).
  assert (∀ k a, axs !! k = Some a →
            title a = "" ∧ xlabel a = "" ∧ ylabel a = "" ∧
            xlim_left a = None ∧ xgrid a = true ∧ ygrid a = false) as Hplain.
  { intros k a Hk. unfold axs in Hk. change (map ?f ?l) with (f <$> l) in Hk.
    rewrite !list_lookup_fmap, list_lookup_imap in Hk.
    destruct (xs !! k); cbn in Hk; [|done]. by injection Hk as <-. }
  intros Hj. apply lookup_app_Some in Hj as [Hj|[Hlen Hj]].
  - apply lookup_zip_with_Some in Hj as (a & t & -> & Ha & Ht).
    destruct (Hplain _ _ Ha) as (_ & Hx & Hy & _). cbn.
    apply lookup_lt_Some in Ht as Hlt. cbn in Hlt.
    repeat split; try done; lia.
  - rewrite length_zip_with in Hlen. cbn [length titles] in Hlen, Hj.
    rewrite lookup_drop in Hj. apply lookup_lt_Some in Hj as Hlt.
    replace (3 + (j - length axs `min` 3)) with j in Hj by lia.
    destruct (Hplain _ _ Hj) as (Ht & Hx & Hy & Hl & Hg & Hyg).
    repeat split; try done; lia.
Qed.

(** The [i]-th figure of a run and the table behind it. *)
Lemma new_file_table a w w' r l0 t0 names i f :
  arg_ok w a →
  arg_list a !! 0 = Some l0 → heap w !! l0 = Some t0 → name_list t0 = Ok names →
  moment_sensitivity_plot a w = (w', r) →
  new_files w w' !! i = Some f →
  0 < length (arg_list a) ∧
  ∃ l t d,
    arg_list a !! i = Some l ∧ heap w !! l = Some t ∧
    reshape names (length (arg_list a)) t = Ok d ∧
    table_of w' f = Some d ∧
    snd f = figure (data (snd f)) (py_tail (length names) (labels d)) i.
Proof.
  intros Hok H0 Hl0 Hnames Hrun Hf.
  destruct (plot_run _ _ _ _ _ _ _ Hok H0 Hl0 Hnames Hrun)
    as (_ & fs & Hfs & Hall & _).
  rewrite (new_files_app _ _ _ Hfs) in Hf.
  destruct (Hall i f Hf) as (l & t & d & Hl & Ht & Hd & Htab & Hfig).
  apply render_reshape in Hd.
  split; [apply lookup_lt_Some in H0; lia|].
  exists l, t, d. repeat split; try done. by rewrite Hfig at 1.
Qed.

(** ** The reshaped table, cell by cell *)

(** X5. The rows of a reshaped table are the trailing columns of its table, as
    many as there are tables in the list, or all columns when the table has
    fewer: the index column lists their labels, in order, and the new row
    index counts from 0. *)
Theorem reshaped_rows_are_trailing_columns a w w' r l0 t0 names i f :
  arg_ok w a →
  arg_list a !! 0 = Some l0 →
  heap w !! l0 = Some t0 →
  name_list t0 = Ok names →
  moment_sensitivity_plot a w = (w', r) →
  new_files w w' !! i = Some f →
  ∃ l t d ix params,
    arg_list a !! i = Some l ∧ heap w !! l = Some t ∧
    table_of w' f = Some d ∧
    cols d = (ix, py_tail (length (arg_list a)) (labels t)) :: params ∧
    idx d = range_index (Nat.min (length (arg_list a)) (ncols t)) ∧
    nrows d = Nat.min (length (arg_list a)) (ncols t).
Proof.
  intros Hok H0 Hl0 Hnames Hrun Hf.
  destruct (new_file_table _ _ _ _ _ _ _ _ _ Hok H0 Hl0 Hnames Hrun Hf)
    as (Hpos & l & t & d & Hl & Ht & Hd & Htab & _).
  destruct (reshape_columns _ _ _ _ Hd) as (d1 & _ & _ & Hidx & Hcols).
  assert (length (py_tail (length (arg_list a)) (labels t))
          = Nat.min (length (arg_list a)) (ncols t)) as Hlen.
  { rewrite length_py_tail by done. unfold labels, ncols. by rewrite length_map. }
  rewrite Hlen in Hidx.
  exists l, t, d. eexists _, _. repeat split; try done.
  unfold nrows. by rewrite Hidx, length_range_index.
Qed.

Lemma reshaped_rows_are_trailing_columns_witness :
  ∃ l t d ix params,
    [0; 1] !! 1 = Some l ∧ heap world_ab_cd !! l = Some t ∧
    table_of (fst (moment_sensitivity_plot (ArgList [0; 1]) world_ab_cd))
      ("sensitivity_plot2.png", figure 5 [VStr "a"; VStr "b"] 1)
    = Some d ∧
    cols d = (ix, py_tail 2 (labels t)) :: params ∧
    idx d = range_index (Nat.min 2 (ncols t)) ∧
    nrows d = Nat.min 2 (ncols t).
Proof.
  apply (reshaped_rows_are_trailing_columns (ArgList [0; 1]) world_ab_cd _
           (snd (moment_sensitivity_plot (ArgList [0; 1]) world_ab_cd))
           0 table_ab [VStr "a"; VStr "b"] 1).
  - repeat (constructor; [by eexists|]). constructor.
  - reflexivity.
  - reflexivity.
  - reflexivity.
  - vm_compute. reflexivity.
  - vm_compute. reflexivity.
Defined.

(** X6. Reshaping transposes and takes absolute values: in the column of the
    [j]-th name, the row of the [k]-th trailing column holds the absolute
    value of the [j]-th cell of that column, an [int64]; for the smallest
    [int64], whose absolute value is none, it holds that very number. *)
Theorem reshaped_cells_are_absolute_values a w w' r l0 t0 names i f :
  arg_ok w a →
  arg_list a !! 0 = Some l0 →
  heap w !! l0 = Some t0 →
  name_list t0 = Ok names →
  moment_sensitivity_plot a w = (w', r) →
  new_files w w' !! i = Some f →
  ∃ l t d,
    arg_list a !! i = Some l ∧ heap w !! l = Some t ∧
    table_of w' f = Some d ∧
    ∀ j name k c z,
      names !! j = Some name →
      py_tail (length (arg_list a)) (cols t) !! k = Some c →
      snd c !! j = Some (VInt z) →
      in_int64 z = true →
      ∃ cells, cols d !! S j = Some (name, cells) ∧
               cells !! k = Some (VInt (if decide (z = int64_min) then int64_min
                                        else Z.abs z)).
Proof.
  intros Hok H0 Hl0 Hnames Hrun Hf.
  destruct (new_file_table _ _ _ _ _ _ _ _ _ Hok H0 Hl0 Hnames Hrun Hf)
    as (_ & l & t & d & Hl & Ht & Hd & Htab & _).
  exists l, t, d. repeat split; try done.
  intros j name k c z Hname Hc Hz Hint.
  eexists. split; [by apply (reshape_cells _ _ _ _ _ _ Hd Hname)|].
  change (map ?g ?cs) with (g <$> cs).
  rewrite list_lookup_fmap, Hc. cbn [fmap option_fmap option_map].
  by rewrite (abs_cells_lookup _ _ _ Hz), (abs64_int64 _ Hint).
Qed.

Lemma reshaped_cells_are_absolute_values_witness :
  ∃ l t d,
    [0; 1] !! 1 = Some l ∧ heap world_ab_cd !! l = Some t ∧
    table_of (fst (moment_sensitivity_plot (ArgList [0; 1]) world_ab_cd))
      ("sensitivity_plot2.png", figure 5 [VStr "a"; VStr "b"] 1)
    = Some d ∧
    ∀ j name k c z,
      [VStr "a"; VStr "b"] !! j = Some name →
      py_tail 2 (cols t) !! k = Some c →
      snd c !! j = Some (VInt z) →
      in_int64 z = true →
      ∃ cells, cols d !! S j = Some (name, cells) ∧
               cells !! k = Some (VInt (if decide (z = int64_min) then int64_min
                                        else Z.abs z)).
Proof.
  apply (reshaped_cells_are_absolute_values (ArgList [0; 1]) world_ab_cd _
           (snd (moment_sensitivity_plot (ArgList [0; 1]) world_ab_cd))
           0 table_ab [VStr "a"; VStr "b"] 1).
  - repeat (constructor; [by eexists|]). constructor.
  - reflexivity.
  - reflexivity.
  - reflexivity.
  - vm_compute. reflexivity.
  - vm_compute. reflexivity.
Defined.

(** The smallest [int64] comes out of the call as it went in. *)
Example smallest_int64_stays :
  ∃ w' f,
    moment_sensitivity_plot (ArgFrame 0) world_min = (w', Ok "Figures saved.") ∧
    new_files world_min w' = [f] ∧
    table_of w' f
    = Some (mkDataFrame [VInt 0]
              [ (VStr "index", [VStr "m"]);
                (VStr "a", [VInt int64_min]); (VStr "b", [VInt 2]) ]).
Proof. do 2 eexists. split; [vm_compute; reflexivity|]. by split. Qed.

(** X7. Whatever the signs in a table of [int64] cells, every cell of a
    parameter column of its reshaped table is a number that is not
    negative, or is the smallest [int64]. *)
Theorem reshaped_values_not_negative a w w' r l0 t0 names i f l t :
  arg_ok w a →
  arg_list a !! 0 = Some l0 →
  heap w !! l0 = Some t0 →
  name_list t0 = Ok names →
  moment_sensitivity_plot a w = (w', r) →
  new_files w w' !! i = Some f →
  arg_list a !! i = Some l →
  heap w !! l = Some t →
  wf t = true →
  int64_cells t = true →
  ∃ d, table_of w' f = Some d ∧
    ∀ j c v, cols d !! S j = Some c → v ∈ snd c →
      ∃ z, v = VInt z ∧ (0 ≤ z ∨ z = int64_min)%Z.
Proof.
  intros Hok H0 Hl0 Hnames Hrun Hf Hl Ht Hwf Hint.
  destruct (new_file_table _ _ _ _ _ _ _ _ _ Hok H0 Hl0 Hnames Hrun Hf)
    as (_ & l' & t' & d & Hl' & Ht' & Hd & Htab & _).
  assert (l' = l) as -> by congruence.
  assert (t' = t) as -> by congruence.
  exists d. split; [done|]. intros j c v Hc Hv.
  destruct (reshape_parameter_column _ _ _ _ _ _ Hd Hc) as [name Hname].
  rewrite (reshape_cells _ _ _ _ _ _ Hd Hname) in Hc. injection Hc as <-.
  cbn [snd] in Hv. change (map ?g ?cs) with (g <$> cs) in Hv.
  apply list_elem_of_fmap in Hv as (c0 & -> & Hc0).
  destruct (reshape_columns _ _ _ _ Hd) as (d1 & Habs & Hlen & _).
  apply absolute_spec in Habs as [Hnum _].
  assert (c0 ∈ cols t) as Hc0t.
  { revert Hc0. unfold py_tail. destruct (Nat.eqb _ 0); [done|].
    apply subseteq_drop. }
  rewrite forallb_forall in Hnum. apply list_elem_of_In, Hnum in Hc0.
  rewrite forallb_forall in Hc0.
  unfold wf in Hwf. rewrite forallb_forall in Hwf.
  pose proof (Hwf c0 (proj1 (list_elem_of_In _ _) Hc0t)) as Hcells.
  apply Nat.eqb_eq in Hcells.
  unfold int64_cells in Hint. rewrite forallb_forall in Hint.
  pose proof (Hint c0 (proj1 (list_elem_of_In _ _) Hc0t)) as Hc0int.
  rewrite forallb_forall in Hc0int.
  destruct (lookup_lt_is_Some_2 (snd c0) j) as [v0 Hv0].
  { rewrite Hcells, <- Hlen. by eapply lookup_lt_Some. }
  pose proof (list_elem_of_lookup_2 _ _ _ Hv0) as Hin.
  apply list_elem_of_In in Hin.
  pose proof (Hc0 v0 Hin) as Hnumber. pose proof (Hc0int v0 Hin) as Hrange.
  destruct v0 as [s|z]; [done|].
  rewrite (abs_cells_lookup _ _ _ Hv0). cbn [default].
  exists (abs64 z). split; [done|]. rewrite (abs64_int64 _ Hrange).
  destruct (decide (z = int64_min)); [by right|left; lia].
Qed.

Lemma reshaped_values_not_negative_witness :
  ∃ d,
    table_of (fst (moment_sensitivity_plot (ArgList [0; 1]) world_ab_cd))
      ("sensitivity_plot2.png", figure 5 [VStr "a"; VStr "b"] 1)
    = Some d ∧
    ∀ j c v, cols d !! S j = Some c → v ∈ snd c →
      ∃ z, v = VInt z ∧ (0 ≤ z ∨ z = int64_min)%Z.
Proof.
  apply (reshaped_values_not_negative (ArgList [0; 1]) world_ab_cd _
           (snd (moment_sensitivity_plot (ArgList [0; 1]) world_ab_cd))
           0 table_ab [VStr "a"; VStr "b"] 1 _ 1 table_cd).
  - repeat (constructor; [by eexists|]). constructor.
  - reflexivity.
  - reflexivity.
  - reflexivity.
  - vm_compute. reflexivity.
  - vm_compute. reflexivity.
  - reflexivity.
  - reflexivity.
  - reflexivity.
  - reflexivity.
Defined.

(** ** The figure *)

(** X8. The title loop reaches the first three subplots only.  There the x
    axis starts at zero, its grid is off, and the grid of the y axis, which
    the strip plot had switched off, is on again.  From the fourth on, a
    subplot has no title, keeps its limits and the x grid of the style, and
    stays without the y grid.  All subplots lose their axis labels, and the
    bottom spine is removed. *)
Theorem only_three_subplots_are_styled a w w' r i f :
  arg_ok w a →
  moment_sensitivity_plot a w = (w', r) →
  new_files w w' !! i = Some f →
  despine_bottom (snd f) = true ∧
  length (axes (snd f)) = length (x_vars (snd f)) ∧
  ∀ j ax, axes (snd f) !! j = Some ax →
    xlabel ax = "" ∧ ylabel ax = "" ∧
    (j < 3 → titles !! j = Some (title ax) ∧
             xlim_left ax = Some 0%Z ∧ xgrid ax = false ∧ ygrid ax = true) ∧
    (3 ≤ j → title ax = "" ∧ xlim_left ax = None ∧
             xgrid ax = true ∧ ygrid ax = false).
Proof.
  intros Hok Hrun Hf.
  destruct (plot_run_cases _ _ _ _ Hok Hrun)
    as [[-> _]|(l0 & t0 & names & H0 & Hl0 & Hnames & _)].
  { by rewrite new_files_same in Hf. }
  destruct (new_file_table _ _ _ _ _ _ _ _ _ Hok H0 Hl0 Hnames Hrun Hf)
    as (_ & l & t & d & _ & _ & _ & _ & Hfig).
  rewrite Hfig. split; [done|]. split.
  - by destruct (figure_titles (data (snd f))
                   (py_tail (length names) (labels d)) i) as (-> & -> & _).
  - intros j ax. apply figure_axes.
Qed.

Lemma only_three_subplots_are_styled_witness :
  let f := ("sensitivity_plot1.png",
            figure 2 [VStr "a"; VStr "b"; VStr "c"; VStr "d"; VStr "e"] 0) in
  despine_bottom (snd f) = true ∧
  length (axes (snd f)) = length (x_vars (snd f)) ∧
  ∀ j ax, axes (snd f) !! j = Some ax →
    xlabel ax = "" ∧ ylabel ax = "" ∧
    (j < 3 → titles !! j = Some (title ax) ∧
             xlim_left ax = Some 0%Z ∧ xgrid ax = false ∧ ygrid ax = true) ∧
    (3 ≤ j → title ax = "" ∧ xlim_left ax = None ∧
             xgrid ax = true ∧ ygrid ax = false).
Proof.
  apply (only_three_subplots_are_styled (ArgFrame 0) world_five
           (fst (moment_sensitivity_plot (ArgFrame 0) world_five))
           (snd (moment_sensitivity_plot (ArgFrame 0) world_five)) 0).
  - repeat (constructor; [by eexists|]). constructor.
  - vm_compute. reflexivity.
  - vm_compute. reflexivity.
Defined.

Example fourth_subplot_is_left_alone :
  axes (figure 2 [VStr "a"; VStr "b"; VStr "c"; VStr "d"; VStr "e"] 0) !! 3
  = Some (mkAxes "" "" "" None true false).
Proof. reflexivity. Qed.

(** X9. The grid plots the column "index" against the last [P] columns, where
    [P] is the number of names.  With names, these are the parameter
    columns.  Without names (a first table without rows), [-0] slices
    nothing off, and the one x variable is the index column itself. *)
Theorem grid_variables a w w' r l0 t0 names i f :
  arg_ok w a →
  arg_list a !! 0 = Some l0 →
  heap w !! l0 = Some t0 →
  name_list t0 = Ok names →
  moment_sensitivity_plot a w = (w', r) →
  new_files w w' !! i = Some f →
  y_vars (snd f) = [VStr "index"] ∧
  (names ≠ [] → x_vars (snd f) = names) ∧
  (names = [] → x_vars (snd f) = [VStr "index"]).
Proof.
  intros Hok H0 Hl0 Hnames Hrun Hf.
  destruct (new_file_table _ _ _ _ _ _ _ _ _ Hok H0 Hl0 Hnames Hrun Hf)
    as (_ & l & t & d & _ & _ & Hd & _ & Hfig).
  rewrite Hfig. split; [done|].
  destruct (figure_titles (data (snd f)) (py_tail (length names) (labels d)) i)
    as (-> & _).
  destruct (reshape_columns _ _ _ _ Hd) as (d1 & Habs & Hlen & _ & Hcols).
  assert (labels d =
          (if bool_decide (VStr "index" ∈ names) then VStr "level_0"
           else VStr "index") :: names) as ->.
  { unfold labels. rewrite Hcols. cbn [map fst]. f_equal.
    apply relabel_labels.
    change (length names = ncols (tail_rows (length (arg_list a)) (transpose d1))).
    rewrite transposed_tail_ncols. unfold nrows in *.
    by rewrite (absolute_idx _ _ _ Habs). }
  split.
  - intros Hne. unfold py_tail.
    destruct (Nat.eqb_spec (length names) 0) as [Hz|Hz].
    { by destruct names. }
    cbn [length]. by replace (S (length names) - length names) with 1 by lia.
  - by intros ->.
Qed.

Lemma grid_variables_witness :
  let f := ("sensitivity_plot1.png", figure 2 [VStr "index"] 0) in
  y_vars (snd f) = [VStr "index"] ∧
  (@nil value ≠ [] → x_vars (snd f) = []) ∧
  (@nil value = [] → x_vars (snd f) = [VStr "index"]).
Proof.
  apply (grid_variables (ArgFrame 0) world_empty
           (fst (moment_sensitivity_plot (ArgFrame 0) world_empty))
           (snd (moment_sensitivity_plot (ArgFrame 0) world_empty))
           0 table_empty [] 0).
  - repeat (constructor; [by eexists|]). constructor.
  - reflexivity.
  - reflexivity.
  - reflexivity.
  - vm_compute. reflexivity.
  - vm_compute. reflexivity.
Defined.

(** X10. A parameter called "index" takes the place of the row labels in the
    plot: the labels of the measures go to a column "level_0", and the
    y variable "index" of the grid is then the parameter's column, which is
    one of the x variables as well. *)
Theorem parameter_called_index a w w' r l0 t0 names i f :
  arg_ok w a →
  arg_list a !! 0 = Some l0 →
  heap w !! l0 = Some t0 →
  name_list t0 = Ok names →
  VStr "index" ∈ names →
  moment_sensitivity_plot a w = (w', r) →
  new_files w w' !! i = Some f →
  ∃ l t d params,
    arg_list a !! i = Some l ∧ heap w !! l = Some t ∧
    table_of w' f = Some d ∧
    cols d = (VStr "level_0", py_tail (length (arg_list a)) (labels t)) :: params ∧
    map fst params = names ∧
    y_vars (snd f) = [VStr "index"] ∧
    VStr "index" ∈ x_vars (snd f).
Proof.
  intros Hok H0 Hl0 Hnames Hin Hrun Hf.
  destruct (new_file_table _ _ _ _ _ _ _ _ _ Hok H0 Hl0 Hnames Hrun Hf)
    as (_ & l & t & d & Hl & Ht & Hd & Htab & Hfig).
  destruct (reshape_columns _ _ _ _ Hd) as (d1 & Habs & Hlen & _ & Hcols).
  rewrite bool_decide_eq_true_2 in Hcols by done.
  assert (map fst (zip_with (λ name (c : column), (name, snd c)) names
                     (cols (tail_rows (length (arg_list a)) (transpose d1))))
          = names) as Hpar.
  { apply relabel_labels.
    change (length names = ncols (tail_rows (length (arg_list a)) (transpose d1))).
    rewrite transposed_tail_ncols. unfold nrows in *.
    by rewrite (absolute_idx _ _ _ Habs). }
  exists l, t, d. eexists. split; [done|]. split; [done|]. split; [done|].
  split; [exact Hcols|]. split; [exact Hpar|].
  rewrite Hfig. split; [done|].
  destruct (figure_titles (data (snd f)) (py_tail (length names) (labels d)) i)
    as (-> & _).
  unfold labels. rewrite Hcols. cbn [map fst]. rewrite Hpar.
  unfold py_tail. destruct (Nat.eqb_spec (length names) 0) as [Hz|Hz].
  { destruct names; [by apply elem_of_nil in Hin|done]. }
  cbn [length]. by replace (S (length names) - length names) with 1 by lia.
Qed.

Lemma parameter_called_index_witness :
  let f := ("sensitivity_plot1.png", figure 2 [VStr "index"; VStr "b"] 0) in
  ∃ l t d params,
    [0] !! 0 = Some l ∧ heap world_index !! l = Some t ∧
    table_of (fst (moment_sensitivity_plot (ArgFrame 0) world_index)) f = Some d ∧
    cols d = (VStr "level_0", py_tail 1 (labels t)) :: params ∧
    map fst params = [VStr "index"; VStr "b"] ∧
    y_vars (snd f) = [VStr "index"] ∧
    VStr "index" ∈ x_vars (snd f).
Proof.
  apply (parameter_called_index (ArgFrame 0) world_index _
           (snd (moment_sensitivity_plot (ArgFrame 0) world_index))
           0 table_index [VStr "index"; VStr "b"] 0).
  - repeat (constructor; [by eexists|]). constructor.
  - reflexivity.
  - reflexivity.
  - reflexivity.
  - by left.
  - vm_compute. reflexivity.
  - vm_compute. reflexivity.
Defined.
